(** * hossam/tensor.py: layer-specification translation, callback assembly
      and metric grouping

    A shallow embedding of [src/hossam/tensor.py].  The module is glue
    code around Keras, KerasTuner, pandas and matplotlib.  Those
    collaborators are not part of the repository: the calls that build,
    train, search or plot are recorded in a trace, and whatever the
    collaborators return is supplied by an interface ([Backend],
    [HyperParameters], [Tuner]).  Python exceptions are an explicit
    result, layer-specification dictionaries are finite maps, and the
    training history, whose key order matters, is an association list. *)

From Stdlib Require Import QArith.
From stdpp Require Import base option list strings gmap numbers.

Close Scope Q_scope.

Open Scope Z_scope.

(** ** Python values, exceptions and truthiness *)

Module Py.

(** The values that occur in layer specifications and hyperparameter
    candidate lists.  Float literals ([1e-2], [0.1]) are carried as exact
    decimal rationals: the module never computes with them. *)
#[local] Set Warnings "-register-all".
Inductive value :=
| VInt (z : Z)
| VFloat (q : Q)
| VStr (s : string)
| VTuple (t : list Z)
| VList (l : list value).

Inductive exn :=
| ValueError (msg : string)
| NameError (name : string)
| KeyError (key : string)
| TypeError (msg : string)
| IndexError (msg : string)
| AttributeError (msg : string)
| OSError (msg : string).

Inductive result (A : Type) :=
| Ok (a : A)
| Raise (e : exn).
Arguments Ok {A} a.
Arguments Raise {A} e.

(** [bool(x)] as used by [if x:] and [not x]. *)
Class Truthy (A : Type) := truthy : A → bool.

#[global] Instance truthy_bool : Truthy bool := λ b, b.
#[global] Instance truthy_string : Truthy string := λ s,
  match s with EmptyString => false | String _ _ => true end.
#[global] Instance truthy_list {A} : Truthy (list A) := λ l,
  match l with [] => false | _ :: _ => true end.
(** [None] is falsy; any other object answers for itself. *)
#[global] Instance truthy_option {A} `{Truthy A} : Truthy (option A) := λ o,
  match o with None => false | Some a => truthy a end.

(** [x is not None] *)
Definition is_not_None {A} (o : option A) : bool :=
  match o with Some _ => true | None => false end.

(** [range(a, b)] *)
Definition range (a b : Z) : list Z :=
  (λ k, a + Z.of_nat k) <$> seq 0 (Z.to_nat (b - a)).

(** [s[:n]] on a string *)
Definition str_prefix (n : nat) (s : string) : string := String.substring 0 n s.

(** [l[:-1]] *)
Definition drop_last {A} (l : list A) : list A := take (length l - 1)%nat l.

(** [l.index(x)]: position of the first occurrence, [ValueError] when absent. *)
Fixpoint list_index (x : string) (l : list string) : result Z :=
  match l with
  | [] => Raise (ValueError "x is not in list")
  | y :: l' =>
      if String.eqb y x then Ok 0
      else match list_index x l' with
           | Ok k => Ok (k + 1)
           | Raise e => Raise e
           end
  end.

End Py.
Export Py.

(** ** What the module hands to Keras *)

Module Keras.

(** [GlorotUniform(seed=...)] *)
Inductive initializer := GlorotUniform (seed : Z).

(** The keyword arguments of one [Dense(...)] construction. *)
Record Dense := mkDense {
  units : value;
  input_shape : option value;
  activation : value;
  kernel_initializer : option initializer
}.

(** The [optimizer] argument: an identifier string, an optimizer object
    made by the caller, or the [Adam(...)] instance the tuner path builds. *)
Inductive optimizer :=
| OptName (s : string)
| OptObject (tag : string)
| Adam (learning_rate : value).

(** [optimizer == s] for a string [s]: only an identifier can equal it. *)
Definition optimizer_eq_str (o : optimizer) (s : string) : bool :=
  match o with
  | OptName n => String.eqb n s
  | _ => false
  end.

Record compile_args := mkCompile {
  c_optimizer : option optimizer;
  c_loss : option string;
  c_metrics : option (list string)
}.

(** A [Sequential] model as far as this module determines it: the layers
    added to it, in order, and the arguments of [compile] (absent on a
    model that was never compiled). *)
Record Sequential := mkSequential {
  layers : list Dense;
  compiled : option compile_args
}.

Record ndarray := mkNdarray {
  shape : list Z;
  data : list Q
}.

Inductive callback :=
| EarlyStopping (patience : Z) (restore_best_weights : bool) (verbose : Z)
| ReduceLROnPlateau (factor : Q) (patience : Z) (verbose : Z)
| ModelCheckpoint (filepath : string) (save_best_only save_weights_only : bool)
    (verbose : Z)
| TensorBoard (log_dir : string) (histogram_freq : Z) (write_graph : bool).

Record fit_args := mkFit {
  f_x : option ndarray;
  f_y : option ndarray;
  f_epochs : Z;
  f_batch_size : Z;
  f_validation_data : option (option ndarray * option ndarray);
  f_verbose : Z;
  f_callbacks : list callback
}.

(** [History.history]: metric name to per-epoch values, in insertion order. *)
Record History := mkHistory {
  history : list (string * list Q)
}.

End Keras.
Export Keras.

(** ** Calls into the collaborators, and the monad that records them *)

Module Effects.

(** A table handed to [my_pretty_table]: the per-split evaluation rows of
    the trainer, or the per-epoch frame of the reporter (index values and
    named columns). *)
Inductive table :=
| SplitRows (rows : list (string * list (string * Q)))
| EpochFrame (index : list Q) (columns : list (string * list Q)).

Record hyperband_args := mkHyperband {
  hb_objective : string;
  hb_max_epochs : Z;
  hb_factor : Z;
  hb_seed : Z;
  hb_directory : string;
  hb_project_name : string
}.

Record search_args := mkSearch {
  s_x : option ndarray;
  s_y : option ndarray;
  s_epochs : Z;
  s_batch_size : Z;
  s_validation_data : option ndarray * option ndarray
}.

Inductive call :=
| call_load_model (filepath : string)
| call_Sequential
| call_Dense (l : Dense)
| call_add (l : Dense)
| call_compile (a : compile_args)
| call_callback (c : callback)
| call_fit (model : Sequential) (a : fit_args)
| call_evaluate (model : Sequential) (x y : ndarray)
| call_my_pretty_table (t : table)
| call_subplots (nrows ncols : Z) (figsize : Q * Q) (dpi : Z)
| call_plot (y : list string) (ax : Z)
| call_grid (ax : Z)
| call_show
| call_close
| call_Choice (name : string) (values : value)
| call_Hyperband (a : hyperband_args)
| call_search (a : search_args)
| call_get_best_hyperparameters.

(** A computation reads the calls made so far and returns a value or a
    raised exception together with the extended trace. *)
Definition M (A : Type) : Type := list call → result A * list call.

#[global] Instance M_ret : MRet M := λ A a t, (Ok a, t).
#[global] Instance M_bind : MBind M := λ A B f m t,
  match m t with
  | (Ok a, t') => f a t'
  | (Raise e, t') => (Raise e, t')
  end.

Definition raise {A} (e : exn) : M A := λ t, (Raise e, t).
Definition emit (c : call) : M () := λ t, (Ok (), t ++ [c]).
Definition lift {A} (r : result A) : M A := λ t, (r, t).

(** [try: m except: handler] with a bare [except]. *)
Definition try_except {A} (m : result A) (handler : A) : A :=
  match m with Ok a => a | Raise _ => handler end.

(** [for x in l: s = body(s, x)] *)
Fixpoint for_each {A S} (body : S → A → M S) (l : list A) (s : S) : M S :=
  match l with
  | [] => mret s
  | x :: l' => s' ← body s x; for_each body l' s'
  end.

(** [d[k]] on a dictionary *)
Definition getitem (d : gmap string value) (k : string) : M value :=
  match d !! k with
  | Some v => mret v
  | None => raise (KeyError k)
  end.

(** [k in d] *)
Definition contains (k : string) (d : gmap string value) : bool :=
  bool_decide (is_Some (d !! k)).

(** Running a computation from the empty trace. *)
Definition run {A} (m : M A) : result A * list call := m [].

End Effects.
Export Effects.

(** ** The names bound at module level (lines 1-24 and the six [def]s) *)

Definition module_globals : list string :=
  [ "np"; "dt"; "set_seed"; "GlorotUniform"; "Sequential"; "load_model";
    "Dense"; "History"; "EarlyStopping"; "ReduceLROnPlateau"; "TensorBoard";
    "Adam"; "DataFrame"; "plt"; "my_pretty_table"; "get_random_state";
    "Hyperband"; "__initializer__"; "tf_tune"; "tf_create"; "tf_train";
    "tf_result"; "my_tf"; "my_tf_linear" ].

(** Evaluating a global name: a name that no import or definition binds
    (and that is no builtin) raises [NameError] at the moment it is
    evaluated. *)
Definition global_name (n : string) : M () :=
  if bool_decide (n ∈ module_globals) then mret () else raise (NameError n).

(** ** The collaborators' answers *)

(** What the repository's own [core] module and the Keras runtime return.
    [random_state] is [get_random_state()], [saved_models] the model files
    on disk, [keras_fit] and [keras_evaluate] the outcome of [model.fit]
    and [model.evaluate]. *)
Class Backend := {
  random_state : Z;
  saved_models : gmap string Sequential;
  keras_fit : Sequential → fit_args → result History;
  keras_evaluate : Sequential → ndarray → ndarray → result (list (string * Q))
}.

Section Builder.
Context {backend : Backend}.

(** line 24 *)
Definition __initializer__ : initializer := GlorotUniform random_state.

(** [load_model(filepath)]; a path under which nothing is persisted is
    the framework's error, passed on unchanged. *)
Definition load_model (filepath : string) : M Sequential :=
  global_name "load_model";;
  emit (call_load_model filepath);;
  match saved_models !! filepath with
  | Some m => mret m
  | None => raise (OSError filepath)
  end.

Definition Sequential_new : M Sequential :=
  global_name "Sequential";;
  emit call_Sequential;;
  mret (mkSequential [] None).

Definition Dense_new (l : Dense) : M Dense :=
  emit (call_Dense l);; mret l.

Definition model_add (model : Sequential) (l : Dense) : M Sequential :=
  emit (call_add l);;
  mret (mkSequential (layers model ++ [l]) (compiled model)).

Definition model_compile (model : Sequential) (a : compile_args) : M Sequential :=
  emit (call_compile a);;
  mret (mkSequential (layers model) (Some a)).

(** lines 154-171, the body of the loop over [dense] *)
Definition tf_create_layer (model : Sequential) (v : gmap string value)
  : M Sequential :=
  if contains "input_shape" v then
    global_name "Dense";;
    u ← getitem v "units";
    s ← getitem v "input_shape";
    a ← getitem v "activation";
    l ← Dense_new (mkDense u (Some s) a (Some __initializer__));
    model_add model l
  else
    global_name "Dense";;
    u ← getitem v "units";
    a ← getitem v "activation";
    l ← Dense_new (mkDense u None a (Some __initializer__));
    model_add model l.

(** lines 122-174 *)
Definition tf_create (dense : list (gmap string value)) (optimizer : optimizer)
    (loss : option string) (metrics : option (list string))
    (model_path : option string) : M Sequential :=
  if truthy model_path then
    load_model (default "" model_path)
  else if negb (truthy dense) || negb (truthy loss) || negb (truthy metrics) then
    raise (ValueError "dense, loss, and metrics are required arguments")
  else
    model ← Sequential_new;
    model ← for_each tf_create_layer dense model;
    model_compile model (mkCompile (Some optimizer) loss metrics).

End Builder.

(** ** The trainer *)

Section Trainer.
Context {backend : Backend}.

Definition callback_new (c : callback) : M callback :=
  emit (call_callback c);; mret c.

Definition model_fit (model : Sequential) (a : fit_args) : M History :=
  emit (call_fit model a);; lift (keras_fit model a).

Definition model_evaluate (model : Sequential) (x y : ndarray)
  : M (list (string * Q)) :=
  emit (call_evaluate model x y);; lift (keras_evaluate model x y).

Definition my_pretty_table (t : table) : M () :=
  global_name "my_pretty_table";; emit (call_my_pretty_table t).

(** lines 211-234 *)
Definition tf_train_callbacks (early_stopping reduce_lr : bool)
    (checkpoint_path tensorboard_path : option string) (verbose : Z)
  : M (list callback) :=
  let callbacks := [] in
  callbacks ←
    (if truthy early_stopping then
       global_name "EarlyStopping";;
       c ← callback_new (EarlyStopping 10 true verbose);
       mret (callbacks ++ [c])
     else mret callbacks);
  callbacks ←
    (if truthy reduce_lr then
       global_name "ReduceLROnPlateau";;
       c ← callback_new (ReduceLROnPlateau (1 # 10)%Q 5 verbose);
       mret (callbacks ++ [c])
     else mret callbacks);
  callbacks ←
    (if truthy checkpoint_path then
       global_name "ModelCheckpoint";;
       c ← callback_new
             (ModelCheckpoint (default "" checkpoint_path) true true verbose);
       mret (callbacks ++ [c])
     else mret callbacks);
  callbacks ←
    (if truthy tensorboard_path then
       global_name "TensorBoard";;
       c ← callback_new (TensorBoard (default "" tensorboard_path) 1 true);
       mret (callbacks ++ [c])
     else mret callbacks);
  mret callbacks.

(** lines 246-258 *)
Definition tf_train_evaluate (model : Sequential)
    (x_train y_train x_test y_test : option ndarray) : M () :=
  let dataset : list string := [] in
  let result_set : list (list (string * Q)) := [] in
  '(dataset, result_set) ←
    match x_train, y_train with
    | Some x, Some y =>
        r ← model_evaluate model x y;
        mret (dataset ++ ["train"], result_set ++ [r])
    | _, _ => mret (dataset, result_set)
    end;
  '(dataset, result_set) ←
    match x_test, y_test with
    | Some x, Some y =>
        r ← model_evaluate model x y;
        mret (dataset ++ ["test"], result_set ++ [r])
    | _, _ => mret (dataset, result_set)
    end;
  global_name "DataFrame";;
  my_pretty_table (SplitRows (zip dataset result_set)).

(** lines 177-260 *)
Definition tf_train (model : Sequential)
    (x_train y_train x_test y_test : option ndarray) (epochs batch_size : Z)
    (early_stopping reduce_lr : bool)
    (checkpoint_path tensorboard_path : option string) (verbose : Z)
  : M History :=
  callbacks ← tf_train_callbacks early_stopping reduce_lr checkpoint_path
                 tensorboard_path verbose;
  history ← model_fit model
    (mkFit x_train y_train epochs batch_size
       (if is_not_None x_test then Some (x_test, y_test) else None)
       verbose callbacks);
  tf_train_evaluate model x_train y_train x_test y_test;;
  mret history.

End Trainer.

(** ** The reporter *)

Module Pandas.

(** A data frame: the index values and the named columns, in order. *)
Record DataFrame := mkDataFrame {
  df_index : list Q;
  df_columns : list (string * list Q)
}.

(** [DataFrame(d)] for a dictionary of equally long sequences: a column
    per key, in key order, under the default index [0 .. n-1]. *)
Definition DataFrame_of_dict (d : list (string * list Q)) : DataFrame :=
  let n := match d with [] => 0%nat | (_, col) :: _ => length col end in
  mkDataFrame ((λ k, inject_Z (Z.of_nat k)) <$> seq 0 n) d.

(** [df[name] = values]: replaces the column of that name where it
    stands, or appends a new last column. *)
Fixpoint set_column (name : string) (values : list Q)
    (cols : list (string * list Q)) : list (string * list Q) :=
  match cols with
  | [] => [(name, values)]
  | (k, v) :: cols' =>
      if String.eqb k name then (k, values) :: cols'
      else (k, v) :: set_column name values cols'
  end.

Definition df_setitem (df : DataFrame) (name : string) (values : list Q)
  : DataFrame :=
  mkDataFrame (df_index df) (set_column name values (df_columns df)).

(** [df.set_index(name, inplace=True)]: the column becomes the index and
    leaves the columns ([drop=True] is the default). *)
Definition df_set_index (df : DataFrame) (name : string) : result DataFrame :=
  match list_find (λ kv, kv.1 = name) (df_columns df) with
  | Some (_, (_, values)) =>
      Ok (mkDataFrame values
            (filter (λ kv, kv.1 ≠ name) (df_columns df)))
  | None => Raise (KeyError name)
  end.

(** [df.columns] *)
Definition columns_of (df : DataFrame) : list string := (df_columns df).*1.

End Pandas.
Export Pandas.

(** lines 288-303: the loop over [range(0, s - 1)]; the [break] returns
    the groups collected so far. *)
Fixpoint group_names_loop (columns : list string) (indices : list Z)
    (group_names : list (list string)) : result (list (list string)) :=
  match indices with
  | [] => Ok group_names
  | i :: indices' =>
      match columns !! Z.to_nat i with
      | None => Raise (IndexError "index out of bounds")
      | Some ci =>
          if String.eqb (str_prefix 3 ci) "val" then Ok group_names
          else
            let t := "val_" +:+ ci in
            let c2 := drop (Z.to_nat (i + 1)) columns in
            let var_index := try_except (list_index t c2) (-1) in
            if var_index >? -1 then
              group_names_loop columns indices' (group_names ++ [[ci; t]])
            else
              group_names_loop columns indices' (group_names ++ [[ci]])
      end
  end.

(** lines 279-303: from the history to [group_names] *)
Definition tf_result_frame (result : History) : Py.result DataFrame :=
  let result_df := DataFrame_of_dict (history result) in
  let result_df :=
    df_setitem result_df "epochs" ((λ k, Qplus k 1) <$> df_index result_df) in
  df_set_index result_df "epochs".

Definition tf_result_group_names (result_df : DataFrame)
  : result (list (list string)) :=
  let columns := drop_last (columns_of result_df) in
  let s := Z.of_nat (length columns) in
  let group_names := [] in
  group_names_loop columns (range 0 (s - 1)) group_names.

(** lines 312-314; an axis is named by its position, which is what the
    wrapping [ax = [ax]] for a single column (lines 309-310) provides. *)
Definition tf_result_plot (group_names : list (list string)) (_ : ()) (i : Z)
  : M () :=
  match group_names !! Z.to_nat i with
  | None => raise (IndexError "list index out of range")
  | Some y => emit (call_plot y i);; emit (call_grid i)
  end.

(** lines 263-320 *)
Definition tf_result (result : History) (history_table : bool)
    (figsize : Q * Q) (dpi : Z) : M () :=
  global_name "DataFrame";;
  result_df ← lift (tf_result_frame result);
  group_names ← lift (tf_result_group_names result_df);
  let cols := Z.of_nat (length group_names) in
  global_name "plt";;
  emit (call_subplots 1 cols (Qmult figsize.1 (inject_Z cols), figsize.2) dpi);;
  for_each (tf_result_plot group_names) (range 0 cols) ();;
  emit call_show;;
  emit call_close;;
  if truthy history_table then
    my_pretty_table (EpochFrame (df_index result_df) (df_columns result_df))
  else mret ().

(** ** The orchestrators *)

Section Orchestrator.
Context {backend : Backend}.

(** lines 323-396 *)
Definition my_tf (x_train y_train x_test y_test : option ndarray)
    (dense : list (gmap string value)) (optimizer : optimizer)
    (loss : option string) (metrics : option (list string))
    (epochs batch_size : Z) (early_stopping reduce_lr : bool)
    (checkpoint_path model_path tensorboard_path : option string)
    (verbose : Z) (history_table : bool) (figsize : Q * Q) (dpi : Z)
  : M Sequential :=
  model ← tf_create dense optimizer loss metrics model_path;
  result ← tf_train model x_train y_train x_test y_test epochs batch_size
             early_stopping reduce_lr checkpoint_path tensorboard_path verbose;
  tf_result result history_table figsize dpi;;
  mret model.

(** [enumerate(l)] *)
Definition enumerate {A} (l : list A) : list (Z * A) :=
  zip (range 0 (Z.of_nat (length l))) l.

(** [x_train.shape[1]] *)
Definition shape_1 (x_train : option ndarray) : M Z :=
  match x_train with
  | None => raise (AttributeError "'NoneType' object has no attribute 'shape'")
  | Some x =>
      match shape x !! 1%nat with
      | Some n => mret n
      | None => raise (IndexError "tuple index out of range")
      end
  end.

(** lines 451-461, the body of the loop over [enumerate(dense_units)] *)
Definition my_tf_linear_layer (x_train : option ndarray)
    (dense : list (gmap string value)) (iv : Z * Z)
  : M (list (gmap string value)) :=
  let '(i, v) := iv in
  if i =? 0 then
    n ← shape_1 x_train;
    mret (dense ++ [ {[ "units" := VInt v;
                        "input_shape" := VTuple [n];
                        "activation" := VStr "relu" ]} ])
  else
    mret (dense ++ [ {[ "units" := VInt v; "activation" := VStr "relu" ]} ]).

(** lines 448-463: the layer specifications derived from [dense_units] *)
Definition my_tf_linear_dense (x_train : option ndarray) (dense_units : list Z)
  : M (list (gmap string value)) :=
  let dense := [] in
  dense ← for_each (my_tf_linear_layer x_train) (enumerate dense_units) dense;
  mret (dense ++ [ {[ "units" := VInt 1; "activation" := VStr "linear" ]} ]).

(** lines 399-485 *)
Definition my_tf_linear (x_train y_train x_test y_test : option ndarray)
    (dense_units : list Z) (optimizer : optimizer)
    (loss : option string) (metrics : option (list string))
    (epochs batch_size : Z) (early_stopping reduce_lr : bool)
    (model_path checkpoint_path tensorboard_path : option string)
    (verbose : Z) (history_table : bool) (figsize : Q * Q) (dpi : Z)
  : M Sequential :=
  dense ← my_tf_linear_dense x_train dense_units;
  my_tf x_train y_train x_test y_test dense optimizer loss metrics epochs
    batch_size early_stopping reduce_lr checkpoint_path model_path
    tensorboard_path verbose history_table figsize dpi.

End Orchestrator.

(** ** The tuner *)

(** The [hp] object a hypermodel receives.  It belongs to KerasTuner, so
    it enters as an interface: [Choice name values] answers with a value
    and the updated container, [hp_get] reads the value held under a
    name. *)
Class HyperParameters (H : Type) := {
  Choice : string → value → H → result value * H;
  hp_get : H → string → option value
}.

Definition is_VInt (v : value) : bool :=
  match v with VInt _ => true | _ => false end.
Definition is_VFloat (v : value) : bool :=
  match v with VFloat _ => true | _ => false end.
Definition is_VStr (v : value) : bool :=
  match v with VStr _ => true | _ => false end.

(** A usable candidate list: not empty, and of one scalar type. *)
Definition candidates (l : list value) : bool :=
  truthy l && (forallb is_VInt l || forallb is_VFloat l || forallb is_VStr l).

(** KerasTuner's get-or-register rule, the assumption under which the
    tuner is studied: a choice is stored under its name, a name that
    already holds a value answers with that value whatever candidates are
    offered, and a usable candidate list always yields a value. *)
Class GetOrRegister (H : Type) `{HyperParameters H} : Prop := {
  Choice_registers : ∀ name values hp v hp',
    Choice name values hp = (Ok v, hp') → hp_get hp' name = Some v;
  Choice_retrieves : ∀ name values hp v v' hp',
    hp_get hp name = Some v →
    Choice name values hp = (Ok v', hp') → v' = v;
  Choice_total : ∀ name l hp,
    candidates l = true →
    ∃ v hp', Choice name (VList l) hp = (Ok v, hp')
}.

(** What the search hands back from [get_best_hyperparameters()], and
    whether [search] itself raised. *)
Class Tuner (H : Type) := {
  hyperband_search : hyperband_args → search_args → result ();
  hyperband_best : hyperband_args → search_args → list H
}.

Section TunerPath.
Context {H : Type} {hyper : HyperParameters H} {tuner : Tuner H}.

Definition hp_Choice (name : string) (values : value) (hp : H) : M (value * H) :=
  emit (call_Choice name values);;
  match Choice name values hp with
  | (Ok v, hp') => mret (v, hp')
  | (Raise e, _) => raise e
  end.

(** lines 68-83, the body of the loop over [dense] *)
Definition __tf_build_layer (st : Sequential * H) (d : gmap string value)
  : M (Sequential * H) :=
  let '(model, hp) := st in
  if contains "input_shape" d then
    global_name "Dense";;
    values ← getitem d "units";
    '(u, hp) ← hp_Choice "units" values hp;
    s ← getitem d "input_shape";
    a ← getitem d "activation";
    l ← Dense_new (mkDense u (Some s) a None);
    model ← model_add model l;
    mret (model, hp)
  else
    global_name "Dense";;
    values ← getitem d "units";
    '(u, hp) ← hp_Choice "units" values hp;
    a ← getitem d "activation";
    l ← Dense_new (mkDense u None a None);
    model ← model_add model l;
    mret (model, hp).

(** lines 65-96; the closure's free variables are its first arguments. *)
Definition __tf_build (dense : list (gmap string value)) (optimizer : optimizer)
    (learning_rate : list value) (loss : option string)
    (metrics : option (list string)) (hp : H) : M Sequential :=
  model ← Sequential_new;
  '(model, hp) ← for_each __tf_build_layer dense (model, hp);
  let opt : option Keras.optimizer := None in
  opt ←
    (if optimizer_eq_str optimizer "adam" then
       global_name "Adam";;
       '(lr, _) ← hp_Choice "learning_rate" (VList learning_rate) hp;
       mret (Some (Adam lr))
     else mret opt);
  model_compile model (mkCompile opt loss metrics).

(** [metrics[0]] *)
Definition metrics_0 (metrics : option (list string)) : M string :=
  match metrics with
  | None => raise (TypeError "'NoneType' object is not subscriptable")
  | Some [] => raise (IndexError "list index out of range")
  | Some (m :: _) => mret m
  end.

(** lines 27-119; [tuner.hypermodel] wraps the function handed to
    [Hyperband], so line 118 is a call of [__tf_build]. *)
Definition tf_tune (x_train y_train x_test y_test : option ndarray)
    (dense : list (gmap string value)) (optimizer : optimizer)
    (learning_rate : list value) (loss : option string)
    (metrics : option (list string)) (max_epochs factor seed : Z)
    (directory project_name : string) : M Sequential :=
  global_name "Hyperband";;
  m0 ← metrics_0 metrics;
  let hyperband := mkHyperband ("val_" +:+ m0) max_epochs factor seed directory
                 project_name in
  emit (call_Hyperband hyperband);;
  let args := mkSearch x_train y_train 10 32 (x_test, y_test) in
  emit (call_search args);;
  lift (hyperband_search hyperband args);;
  emit call_get_best_hyperparameters;;
  let best_hps := hyperband_best hyperband args in
  if negb (truthy best_hps) then
    raise (ValueError "No best hyperparameters found.")
  else
    match best_hps with
    | hp :: _ => __tf_build dense optimizer learning_rate loss metrics hp
    | [] => raise (IndexError "list index out of range")
    end.

End TunerPath.

(** ** Reading a trace, and the shapes the statements below speak about *)

(** The arguments of the [model.fit] calls in a trace, the callbacks
    constructed in it, the column counts asked of [plt.subplots] and the
    groups handed to [result_df.plot]. *)
Definition fit_calls (t : list call) : list fit_args :=
  omap (λ c, match c with call_fit _ a => Some a | _ => None end) t.

Definition callbacks_made (t : list call) : list callback :=
  omap (λ c, match c with call_callback cb => Some cb | _ => None end) t.

Definition subplot_counts (t : list call) : list Z :=
  omap (λ c, match c with call_subplots _ n _ _ => Some n | _ => None end) t.

Definition plotted (t : list call) : list (list string) :=
  omap (λ c, match c with call_plot y _ => Some y | _ => None end) t.

(** A layer-specification sequence as the data model has it: every entry
    has [units] and [activation], and [input_shape] is on the first entry
    and on no other. *)
Definition layer_specifications (dense : list (gmap string value)) : Prop :=
  ∀ i v, dense !! i = Some v →
    is_Some (v !! "units") ∧ is_Some (v !! "activation") ∧
    (is_Some (v !! "input_shape") ↔ i = 0%nat).

(** How a built layer relates to the specification it came from. *)
Definition mirrors {backend : Backend} (v : gmap string value) (l : Dense)
  : Prop :=
  v !! "units" = Some (units l) ∧
  v !! "activation" = Some (activation l) ∧
  v !! "input_shape" = input_shape l ∧
  kernel_initializer l = Some __initializer__.

(** The specification [my_tf_linear] writes for a hidden width. *)
Definition hidden_spec (v : Z) : gmap string value :=
  {[ "units" := VInt v; "activation" := VStr "relu" ]}.

(** A layer specification as the tuner wants it: a candidate list under
    [units], and an activation. *)
Definition tuner_spec (d : gmap string value) : Prop :=
  (∃ l, d !! "units" = Some (VList l) ∧ candidates l = true) ∧
  is_Some (d !! "activation").

(** Every layer built so far carries the value stored under [units]. *)
Definition shared_units {H : Type} {hyper : HyperParameters H}
    (st : Sequential * H) : Prop :=
  ∀ l, l ∈ layers st.1 → hp_get st.2 "units" = Some (units l).

(** ** A reference hyperparameter container

    KerasTuner's [HyperParameters] keeps a dictionary [values]; [Choice]
    validates the candidates, answers with the value already held under
    the name if there is one, and otherwise registers the first candidate
    as the default.  It instantiates the interface above; that it obeys
    the get-or-register rule is shown with the properties. *)

Module KerasTuner.

Definition Choice_values (name : string) (values : value)
    (hp : gmap string value) : result value * gmap string value :=
  match values with
  | VList l =>
      if candidates l then
        match hp !! name with
        | Some v => (Ok v, hp)
        | None =>
            match l with
            | v :: _ => (Ok v, <[name := v]> hp)
            | [] => (Raise (ValueError "`values` must be provided"), hp)
            end
        end
      else (Raise (TypeError "`values` must be of one scalar type"), hp)
  | _ => (Raise (TypeError "`values` must be a list"), hp)
  end.

#[global] Instance hyperparameters : HyperParameters (gmap string value) := {|
  Choice := Choice_values;
  hp_get := λ hp name, hp !! name
|}.

End KerasTuner.

(** ** Sample collaborators and inputs *)

Module Sample.

Definition persisted : Sequential :=
  mkSequential
    [ mkDense (VInt 8) (Some (VTuple [4])) (VStr "relu") None;
      mkDense (VInt 1) None (VStr "linear") None ]
    (Some (mkCompile (Some (OptName "adam")) (Some "mse") (Some ["mae"]))).

Definition backend : Backend := {|
  random_state := 1234;
  saved_models := {[ "model.keras" := persisted ]};
  keras_fit := λ _ _, Ok (mkHistory [("loss", [1 # 2; 1 # 4]%Q)]);
  keras_evaluate := λ _ _ _, Ok [("loss", (1 # 4)%Q)]
|}.

Definition x_train : ndarray := mkNdarray [100; 10] [].

Definition interleaved : History :=
  mkHistory [ ("loss", [1 # 2; 1 # 4]%Q); ("val_loss", [3 # 5; 1 # 3]%Q);
              ("mae", [2 # 5; 1 # 5]%Q); ("val_mae", [1 # 2; 1 # 4]%Q) ].

Definition unpaired : History :=
  mkHistory [ ("loss", [1 # 2; 1 # 4]%Q); ("acc", [7 # 10; 9 # 10]%Q) ].

Definition unpaired_with_lr : History :=
  mkHistory [ ("loss", [1 # 2; 1 # 4]%Q); ("acc", [7 # 10; 9 # 10]%Q);
              ("lr", [1 # 1000; 1 # 1000]%Q) ].

Definition keras_order_with_lr : History :=
  mkHistory [ ("loss", [1 # 2; 1 # 4]%Q); ("mae", [2 # 5; 1 # 5]%Q);
              ("val_loss", [3 # 5; 1 # 3]%Q); ("val_mae", [1 # 2; 1 # 4]%Q);
              ("lr", [1 # 1000; 1 # 1000]%Q) ].

Definition dense : list (gmap string value) :=
  [ {[ "units" := VInt 64; "input_shape" := VTuple [10];
       "activation" := VStr "relu" ]};
    {[ "units" := VInt 1; "activation" := VStr "linear" ]} ].

Definition tuner_dense : list (gmap string value) :=
  [ {[ "units" := VList [VInt 32; VInt 64]; "input_shape" := VTuple [10];
       "activation" := VStr "relu" ]};
    {[ "units" := VList [VInt 8; VInt 16]; "activation" := VStr "relu" ]};
    {[ "units" := VList [VInt 1]; "activation" := VStr "linear" ]} ].

Definition learning_rate : list value :=
  [VFloat (1 # 100); VFloat (1 # 1000); VFloat (1 # 10000)].

Definition best : gmap string value :=
  {[ "units" := VInt 64; "learning_rate" := VFloat (1 # 1000) ]}.

(** A search that ends with no candidate, and one that ends with [best]. *)
Definition tuner_exhausted : Tuner (gmap string value) := {|
  hyperband_search := λ _ _, Ok ();
  hyperband_best := λ _ _, []
|}.

Definition tuner_found : Tuner (gmap string value) := {|
  hyperband_search := λ _ _, Ok ();
  hyperband_best := λ _ _, [best]
|}.

End Sample.

(** ** More of the trace *)

Definition evaluate_calls (t : list call) : list (ndarray * ndarray) :=
  omap (λ c, match c with call_evaluate _ x y => Some (x, y) | _ => None end) t.

Definition tables (t : list call) : list table :=
  omap (λ c, match c with call_my_pretty_table tb => Some tb | _ => None end) t.

Definition compile_calls (t : list call) : list compile_args :=
  omap (λ c, match c with call_compile a => Some a | _ => None end) t.

(** The calls that construct one layer and add it to the model. *)
Definition layer_calls (l : Dense) : list call := [call_Dense l; call_add l].

(** The calls that plot the groups, one axis after the other. *)
Definition plot_calls (groups : list (list string)) : list call :=
  mjoin (imap (λ i y, [call_plot y (Z.of_nat i); call_grid (Z.of_nat i)])
           groups).

(** What a group can be: a column that does not start with [val], alone
    or followed by its [val_] counterpart, itself a column. *)
Definition group_of (columns : list string) (g : list string) : Prop :=
  ∃ c, c ∈ columns ∧ str_prefix 3 c ≠ "val" ∧
    (g = [c] ∨ (g = [c; "val_" +:+ c] ∧ "val_" +:+ c ∈ columns)).

(** ** More sample collaborators and inputs *)

Module Cases.

(** A runtime whose [model.fit] fails. *)
Definition failing_backend : Backend := {|
  random_state := 1234;
  saved_models := ∅;
  keras_fit := λ _ _, Raise (ValueError "fit failed");
  keras_evaluate := λ _ _ _, Ok [("loss", (1 # 4)%Q)]
|}.

Definition fitted : History :=
  mkHistory [("loss", [1 # 2; 1 # 4]%Q)].

Definition scores (x y : ndarray) : list (string * Q) := [("loss", (1 # 4)%Q)].

Definition y_train : ndarray := mkNdarray [100] [].

(** One-dimensional features. *)
Definition flat : ndarray := mkNdarray [100] [].

(** The second entry has no [units]. *)
Definition dense_without_units : list (gmap string value) :=
  [ {[ "units" := VInt 64; "input_shape" := VTuple [10];
       "activation" := VStr "relu" ]};
    {[ "activation" := VStr "linear" ]} ].

End Cases.

(** * Properties *)

(** ** Stepping through the monad *)

Lemma bind_Ok {A B} (m : M A) (f : A → M B) t a t' :
  m t = (Ok a, t') → (m ≫= f) t = f a t'.
Proof. intros Hm. unfold mbind, M_bind. by rewrite Hm. Qed.

Lemma bind_Raise {A B} (m : M A) (f : A → M B) t e t' :
  m t = (Raise e, t') → (m ≫= f) t = (Raise e, t').
Proof. intros Hm. unfold mbind, M_bind. by rewrite Hm. Qed.

Lemma global_name_bound n t :
  bool_decide (n ∈ module_globals) = true → global_name n t = (Ok (), t).
Proof. intros Hn. unfold global_name. by rewrite Hn. Qed.

Lemma global_name_unbound n t :
  bool_decide (n ∈ module_globals) = false →
  global_name n t = (Raise (NameError n), t).
Proof. intros Hn. unfold global_name. by rewrite Hn. Qed.

Lemma getitem_Some (d : gmap string value) k v t :
  d !! k = Some v → getitem d k t = (Ok v, t).
Proof. intros Hk. unfold getitem. by rewrite Hk. Qed.

Lemma contains_true (d : gmap string value) k v :
  d !! k = Some v → contains k d = true.
Proof. intros Hk. unfold contains. apply bool_decide_eq_true_2. by exists v. Qed.

Lemma contains_false (d : gmap string value) k :
  d !! k = None → contains k d = false.
Proof.
  intros Hk. unfold contains. apply bool_decide_eq_false_2.
  rewrite Hk. by intros [? ?].
Qed.

(** [ModelCheckpoint] is the one callback class the module uses and never
    imports (lines 9-14 against line 223). *)
Lemma ModelCheckpoint_unbound :
  bool_decide ("ModelCheckpoint" ∈ module_globals) = false.
Proof. reflexivity. Qed.

(** ** The model builder *)

Section BuilderFacts.
Context {backend : Backend}.

(** C4. With no model path, a call whose layer list is empty, or whose
    loss is absent or empty, or whose metrics are absent or empty, raises
    [ValueError]; the trace is returned as it was received, so no layer
    was constructed and no framework call was issued before the raise. *)
Theorem tf_create_requires_arguments
    (dense : list (gmap string value)) (optimizer : optimizer)
    (loss : option string) (metrics : option (list string)) (t : list call) :
  dense = [] ∨ (loss = None ∨ loss = Some "") ∨
    (metrics = None ∨ metrics = Some []) →
  tf_create dense optimizer loss metrics None t =
    (Raise (ValueError "dense, loss, and metrics are required arguments"), t).
Proof.
  intros [-> | [[-> | ->] | [-> | ->]]]; unfold tf_create; simpl;
    try reflexivity.
  all: destruct dense; simpl; try reflexivity.
  all: destruct loss as [[|]|]; reflexivity.
Qed.

Lemma tf_create_layer_mirrors (model : Sequential) (v : gmap string value) t :
  is_Some (v !! "units") → is_Some (v !! "activation") →
  ∃ l, mirrors v l ∧
    tf_create_layer model v t =
      (Ok (mkSequential (layers model ++ [l]) (compiled model)),
       t ++ [call_Dense l; call_add l]).
Proof.
  intros [u Hu] [a Ha]. unfold tf_create_layer.
  destruct (v !! "input_shape") as [s|] eqn:Hs.
  - rewrite (contains_true _ _ _ Hs).
    exists (mkDense u (Some s) a (Some __initializer__)). split; [done|].
    erewrite bind_Ok by (by apply global_name_bound).
    erewrite bind_Ok by (by apply getitem_Some).
    erewrite bind_Ok by (by apply getitem_Some).
    erewrite bind_Ok by (by apply getitem_Some).
    unfold Dense_new, model_add, emit, mbind, M_bind, mret, M_ret; simpl.
    by rewrite <- app_assoc.
  - rewrite (contains_false _ _ Hs).
    exists (mkDense u None a (Some __initializer__)). split; [done|].
    erewrite bind_Ok by (by apply global_name_bound).
    erewrite bind_Ok by (by apply getitem_Some).
    erewrite bind_Ok by (by apply getitem_Some).
    unfold Dense_new, model_add, emit, mbind, M_bind, mret, M_ret; simpl.
    by rewrite <- app_assoc.
Qed.

Lemma tf_create_layers_mirror (dense : list (gmap string value)) :
  Forall (λ v, is_Some (v !! "units") ∧ is_Some (v !! "activation")) dense →
  ∀ model t, ∃ built t',
    Forall2 mirrors dense built ∧
    for_each tf_create_layer dense model t =
      (Ok (mkSequential (layers model ++ built) (compiled model)), t').
Proof.
  induction 1 as [|v dense [Hu Ha] _ IH]; intros model t.
  - exists [], t. split; [constructor|]. simpl.
    rewrite app_nil_r. by destruct model.
  - destruct (tf_create_layer_mirrors model v t Hu Ha) as (l & Hl & Hstep).
    destruct (IH (mkSequential (layers model ++ [l]) (compiled model))
                (t ++ [call_Dense l; call_add l])) as (built & t' & Hb & Hrest).
    exists (l :: built), t'. split; [by constructor|].
    simpl. erewrite bind_Ok by exact Hstep.
    rewrite Hrest. simpl. by rewrite <- app_assoc.
Qed.


(** C6, as amended. For a model path that is neither [None] nor the empty
    string and names a persisted model, whatever the layer, loss and
    metrics arguments are, the builder returns that model as persisted,
    compilation state included, and its only call is [load_model]: no
    validation, no layer construction. *)
Theorem tf_create_loads_model_path
    (dense : list (gmap string value)) (optimizer : optimizer)
    (loss : option string) (metrics : option (list string))
    (model_path : string) (model : Sequential) (t : list call) :
  model_path ≠ "" →
  saved_models !! model_path = Some model →
  tf_create dense optimizer loss metrics (Some model_path) t =
    (Ok model, t ++ [call_load_model model_path]).
Proof.
  intros Hne Hsaved. unfold tf_create.
  destruct model_path; [done|]. simpl. unfold load_model.
  erewrite bind_Ok by (by apply global_name_bound).
  unfold emit, mbind, M_bind, mret, M_ret. by rewrite Hsaved.
Qed.

End BuilderFacts.

(** ** The trainer *)

Section TrainerFacts.
Context {backend : Backend}.

Lemma tf_train_evaluate_calls model x_train y_train x_test y_test t r t' :
  tf_train_evaluate model x_train y_train x_test y_test t = (r, t') →
  fit_calls t' = fit_calls t ∧ callbacks_made t' = callbacks_made t.
Proof.
  unfold tf_train_evaluate, model_evaluate, my_pretty_table, fit_calls,
    callbacks_made, lift, emit, mbind, M_bind, mret, M_ret.
  destruct x_train, y_train, x_test, y_test; simpl;
    repeat (case_match; simpl in *; simplify_eq);
    intros; simplify_eq;
    rewrite ?omap_app; simpl; rewrite ?app_nil_r; done.
Qed.

(** C7. With [early_stopping=False], [reduce_lr=False],
    [checkpoint_path=None] and [tensorboard_path=None] the trainer calls
    [model.fit] exactly once, with an empty callback list, and constructs
    no callback at all. *)
Theorem tf_train_without_callbacks (model : Sequential)
    (x_train y_train x_test y_test : option ndarray)
    (epochs batch_size verbose : Z) :
  ∃ a,
    fit_calls (run (tf_train model x_train y_train x_test y_test epochs
                      batch_size false false None None verbose)).2 = [a] ∧
    f_callbacks a = [] ∧
    callbacks_made (run (tf_train model x_train y_train x_test y_test epochs
                           batch_size false false None None verbose)).2 = [].
Proof.
  eexists. unfold run, tf_train, tf_train_callbacks, model_fit. simpl.
  unfold lift, emit, mbind, M_bind, mret, M_ret. simpl.
  destruct (keras_fit _ _) as [h|e]; simpl.
  - destruct (tf_train_evaluate _ _ _ _ _ _) as [r t'] eqn:Hev.
    apply tf_train_evaluate_calls in Hev as [Hfit Hcb].
    destruct r; simpl; rewrite Hfit, Hcb; eauto.
  - eauto.
Qed.

(** C3, the behaviour of the code. Whenever a checkpoint path is given
    (a non-empty string), the trainer raises [NameError] on the name
    [ModelCheckpoint], which the module never imports; it never reaches
    [model.fit], and no checkpoint callback is ever constructed. *)
Theorem tf_train_checkpoint_NameError (model : Sequential)
    (x_train y_train x_test y_test : option ndarray) (epochs batch_size : Z)
    (early_stopping reduce_lr : bool) (checkpoint_path : string)
    (tensorboard_path : option string) (verbose : Z) :
  checkpoint_path ≠ "" →
  (run (tf_train model x_train y_train x_test y_test epochs batch_size
          early_stopping reduce_lr (Some checkpoint_path) tensorboard_path
          verbose)).1 = Raise (NameError "ModelCheckpoint") ∧
  fit_calls (run (tf_train model x_train y_train x_test y_test epochs
                    batch_size early_stopping reduce_lr (Some checkpoint_path)
                    tensorboard_path verbose)).2 = [] ∧
  ∀ p b1 b2 v, ModelCheckpoint p b1 b2 v ∉
    callbacks_made (run (tf_train model x_train y_train x_test y_test epochs
                      batch_size early_stopping reduce_lr (Some checkpoint_path)
                      tensorboard_path verbose)).2.
Proof.
  intros Hne. destruct checkpoint_path; [done|].
  unfold run, tf_train, tf_train_callbacks.
  destruct early_stopping, reduce_lr; simpl;
    (split; [reflexivity|split; [reflexivity|]]);
    intros p b1 b2 v Hin; vm_compute in Hin;
    repeat (apply elem_of_cons in Hin as [Hin|Hin]; [discriminate|]);
    by apply elem_of_nil in Hin.
Qed.

End TrainerFacts.

(** ** The reporter *)

Ltac history_keys result Hkeys :=
  destruct result as [h]; simpl in Hkeys;
  repeat (destruct h as [|[? ?] h]; simpl in Hkeys; try discriminate Hkeys);
  simplify_eq.

(** The scan of the columns ends at the first key that starts with
    [val], whatever follows it. *)
Lemma group_names_loop_break columns i indices group_names ci :
  columns !! Z.to_nat i = Some ci →
  str_prefix 3 ci = "val" →
  group_names_loop columns (i :: indices) group_names = Ok group_names.
Proof. intros Hi Hval. simpl. by rewrite Hi, Hval. Qed.

(** With the plain keys before the [val_] keys and one more column
    after them (a logged learning rate, say), the groups are the two
    (plain, [val_]) pairs. *)
Example tf_result_keras_order_with_lr :
  ∃ result_df,
    tf_result_frame Sample.keras_order_with_lr = Ok result_df ∧
    tf_result_group_names result_df =
      Ok [["loss"; "val_loss"]; ["mae"; "val_mae"]].
Proof. eexists. split; reflexivity. Qed.

(** Even with such a trailing column, a key without a [val_]
    counterpart that stands last among the remaining columns is never
    visited: the loop bound is [s - 1]. *)
Example tf_result_unpaired_with_lr :
  ∃ result_df,
    tf_result_frame Sample.unpaired_with_lr = Ok result_df ∧
    tf_result_group_names result_df = Ok [["loss"]].
Proof. eexists. split; reflexivity. Qed.

(** C1, as amended. For a history whose keys are [loss], [val_loss],
    [mae], [val_mae] in that order, the reporter takes the columns but the
    last, stops at the first key that starts with [val], and so builds
    exactly the one group [loss, val_loss] and asks for exactly one
    subplot. *)
Theorem tf_result_interleaved_keys (result : History) (history_table : bool)
    (figsize : Q * Q) (dpi : Z) :
  (history result).*1 = ["loss"; "val_loss"; "mae"; "val_mae"] →
  ∃ result_df,
    tf_result_frame result = Ok result_df ∧
    tf_result_group_names result_df = Ok [["loss"; "val_loss"]] ∧
    plotted (run (tf_result result history_table figsize dpi)).2 =
      [["loss"; "val_loss"]] ∧
    subplot_counts (run (tf_result result history_table figsize dpi)).2 = [1].
Proof.
  intros Hkeys. history_keys result Hkeys.
  eexists. split; [reflexivity|]. split; [reflexivity|].
  destruct history_table; split; reflexivity.
Qed.

(** C2, the behaviour of the code. For a history whose keys are [loss]
    and [acc], the reporter builds no group at all, plots nothing, and
    asks [plt.subplots] for zero columns. *)
Theorem tf_result_unpaired_keys (result : History) (history_table : bool)
    (figsize : Q * Q) (dpi : Z) :
  (history result).*1 = ["loss"; "acc"] →
  ∃ result_df,
    tf_result_frame result = Ok result_df ∧
    tf_result_group_names result_df = Ok [] ∧
    plotted (run (tf_result result history_table figsize dpi)).2 = [] ∧
    subplot_counts (run (tf_result result history_table figsize dpi)).2 = [0].
Proof.
  intros Hkeys. history_keys result Hkeys.
  eexists. split; [reflexivity|]. split; [reflexivity|].
  destruct history_table; split; reflexivity.
Qed.

(** ** The linear-regression orchestrator *)

Lemma enumerate_cons {A} (x : A) (l : list A) :
  enumerate (x :: l) =
    (0, x) :: zip ((λ k, 0 + Z.of_nat k) <$> seq 1 (length l)) l.
Proof.
  unfold enumerate, range. rewrite Z.sub_0_r, Nat2Z.id. reflexivity.
Qed.

Lemma my_tf_linear_hidden_layers (x_train : option ndarray) (us : list Z) :
  ∀ k dense t,
    for_each (my_tf_linear_layer x_train)
      (zip ((λ k, 0 + Z.of_nat k) <$> seq (S k) (length us)) us) dense t =
    (Ok (dense ++ (hidden_spec <$> us)), t).
Proof.
  induction us as [|u us IH]; intros k dense t; simpl.
  - by rewrite app_nil_r.
  - unfold mbind, M_bind, mret, M_ret.
    rewrite IH. rewrite <- app_assoc. reflexivity.
Qed.

(** C9. For hidden widths [u :: us] and training features of width [n],
    the derived sequence is [{units: u, input_shape: (n,), activation:
    relu}], then [{units: v, activation: relu}] for each remaining width
    [v], then the appended [{units: 1, activation: linear}]; and this is
    the sequence [my_tf_linear] hands to [my_tf]. *)
Theorem my_tf_linear_dense_layers {backend : Backend}
    (x_train : ndarray) (n : Z) (u : Z) (us : list Z) :
  shape x_train !! 1%nat = Some n →
  let dense :=
    {[ "units" := VInt u; "input_shape" := VTuple [n];
       "activation" := VStr "relu" ]}
    :: ((λ v, {[ "units" := VInt v; "activation" := VStr "relu" ]}) <$> us)
    ++ [ {[ "units" := VInt 1; "activation" := VStr "linear" ]} ] in
  (∀ t, my_tf_linear_dense (Some x_train) (u :: us) t = (Ok dense, t)) ∧
  ∀ y_train x_test y_test optimizer loss metrics epochs batch_size
    early_stopping reduce_lr model_path checkpoint_path tensorboard_path
    verbose history_table figsize dpi t,
    my_tf_linear (Some x_train) y_train x_test y_test (u :: us) optimizer
      loss metrics epochs batch_size early_stopping reduce_lr model_path
      checkpoint_path tensorboard_path verbose history_table figsize dpi t =
    my_tf (Some x_train) y_train x_test y_test dense optimizer loss metrics
      epochs batch_size early_stopping reduce_lr checkpoint_path model_path
      tensorboard_path verbose history_table figsize dpi t.
Proof.
  intros Hn dense.
  assert (Hdense : ∀ t,
    my_tf_linear_dense (Some x_train) (u :: us) t = (Ok dense, t)).
  { intros t. unfold my_tf_linear_dense. rewrite enumerate_cons. simpl.
    unfold mbind, M_bind, mret, M_ret. rewrite Hn.
    rewrite my_tf_linear_hidden_layers. reflexivity. }
  split; [exact Hdense|]. intros. unfold my_tf_linear.
  erewrite bind_Ok by apply Hdense. reflexivity.
Qed.

(** ** The reference container obeys the get-or-register rule *)

Lemma Choice_values_registers name values hp v hp' :
  KerasTuner.Choice_values name values hp = (Ok v, hp') → hp' !! name = Some v.
Proof.
  unfold KerasTuner.Choice_values. intros Hc.
  repeat (case_match; simplify_eq); simplify_eq; by simplify_map_eq.
Qed.

Lemma Choice_values_retrieves name values hp v v' hp' :
  hp !! name = Some v →
  KerasTuner.Choice_values name values hp = (Ok v', hp') → v' = v.
Proof.
  unfold KerasTuner.Choice_values. intros Hget Hc.
  repeat (case_match; simplify_eq); by simplify_eq.
Qed.

Lemma Choice_values_total name l hp :
  candidates l = true →
  ∃ v hp', KerasTuner.Choice_values name (VList l) hp = (Ok v, hp').
Proof.
  unfold KerasTuner.Choice_values. intros Hl. rewrite Hl.
  destruct (hp !! name); [eauto|].
  destruct l; [discriminate Hl | eauto].
Qed.

#[global] Instance get_or_register : GetOrRegister (gmap string value).
Proof.
  split.
  - exact Choice_values_registers.
  - exact Choice_values_retrieves.
  - exact Choice_values_total.
Qed.

(** ** The tuner *)

Section TunerFacts.
Context {H : Type} {hyper : HyperParameters H} {laws : GetOrRegister H}
  {tuner : Tuner H}.

(** One pass of the loop body adds exactly one layer, whose unit count is
    what [hp.Choice("units", ...)] answered. *)
Lemma __tf_build_layer_Ok model hp d t model' hp' t' :
  __tf_build_layer (model, hp) d t = (Ok (model', hp'), t') →
  ∃ values l,
    Choice "units" values hp = (Ok (units l), hp') ∧
    layers model' = layers model ++ [l].
Proof.
  unfold __tf_build_layer, hp_Choice, getitem, Dense_new, model_add.
  destruct (contains "input_shape" d);
    (erewrite bind_Ok by (by apply global_name_bound));
    unfold emit, raise, mbind, M_bind, mret, M_ret;
    intros Hstep;
    repeat (case_match; simplify_eq); simpl in *; simplify_eq;
    eexists _, (mkDense _ _ _ _); split; simpl; eauto.
Qed.

Lemma __tf_build_layer_shared st d t st' t' :
  shared_units st →
  __tf_build_layer st d t = (Ok st', t') →
  shared_units st'.
Proof.
  destruct st as [model hp], st' as [model' hp']. intros Hshared Hstep.
  apply __tf_build_layer_Ok in Hstep as (values & l & Hchoice & Hlayers).
  pose proof (Choice_registers _ _ _ _ _ Hchoice) as Hnew.
  intros l' Hl'. simpl in *. rewrite Hlayers in Hl'.
  apply elem_of_app in Hl' as [Hold | Hl'].
  - pose proof (Hshared l' Hold) as Hget. simpl in Hget.
    rewrite Hnew. f_equal.
    exact (Choice_retrieves _ _ _ _ _ _ Hget Hchoice).
  - apply list_elem_of_singleton in Hl' as ->. exact Hnew.
Qed.

Lemma __tf_build_layers_shared dense :
  ∀ st t st' t',
    shared_units st →
    for_each __tf_build_layer dense st t = (Ok st', t') →
    shared_units st'.
Proof.
  induction dense as [|d dense IH]; intros st t st' t' Hshared Hloop; simpl in *.
  - unfold mret, M_ret in Hloop. by simplify_eq.
  - unfold mbind, M_bind in Hloop.
    destruct (__tf_build_layer st d t) as [[st1|e] t1] eqn:Hstep; [|done].
    eapply IH; [|exact Hloop].
    by eapply __tf_build_layer_shared.
Qed.

(** C10. In every model the hypermodel constructs, all dense layers have
    the same unit count: each layer asks [hp.Choice] under the one name
    [units], so whatever candidates a layer lists, it receives the value
    already held under that name. *)
Theorem __tf_build_shares_units (dense : list (gmap string value))
    (optimizer : optimizer) (learning_rate : list value)
    (loss : option string) (metrics : option (list string)) (hp : H)
    (t : list call) (model : Sequential) (t' : list call) :
  __tf_build dense optimizer learning_rate loss metrics hp t = (Ok model, t') →
  ∀ l1 l2, l1 ∈ layers model → l2 ∈ layers model → units l1 = units l2.
Proof.
  unfold __tf_build, Sequential_new. intros Hbuild l1 l2 Hl1 Hl2.
  erewrite bind_Ok in Hbuild; last first.
  { erewrite bind_Ok by (by apply global_name_bound).
    unfold emit, mbind, M_bind, mret, M_ret. reflexivity. }
  unfold mbind at 1, M_bind at 1 in Hbuild.
  destruct (for_each _ _ _ _) as [[[model1 hp1]|e] t1] eqn:Hloop; [|done].
  apply __tf_build_layers_shared in Hloop; last first.
  { intros l Hl. simpl in Hl. by apply elem_of_nil in Hl. }
  assert (layers model = layers model1) as Hlayers.
  { unfold model_compile, hp_Choice, emit, raise, mbind, M_bind, mret, M_ret
      in Hbuild.
    repeat (case_match; simplify_eq); simpl in *; by simplify_eq. }
  rewrite Hlayers in Hl1, Hl2.
  pose proof (Hloop l1 Hl1) as H1. pose proof (Hloop l2 Hl2) as H2.
  simpl in *. congruence.
Qed.


Lemma __tf_build_layer_total model hp d t :
  tuner_spec d →
  ∃ st' t', __tf_build_layer (model, hp) d t = (Ok st', t').
Proof.
  intros [(l & Hu & Hl) [a Ha]].
  destruct (Choice_total "units" l hp Hl) as (v & hp' & Hchoice).
  unfold __tf_build_layer, hp_Choice, Dense_new, model_add.
  destruct (d !! "input_shape") as [s|] eqn:Hs.
  - rewrite (contains_true _ _ _ Hs).
    erewrite bind_Ok by (by apply global_name_bound).
    erewrite bind_Ok by (by apply getitem_Some).
    unfold emit, raise, mbind, M_bind, mret, M_ret, getitem.
    rewrite Hchoice, Hs, Ha. eauto.
  - rewrite (contains_false _ _ Hs).
    erewrite bind_Ok by (by apply global_name_bound).
    erewrite bind_Ok by (by apply getitem_Some).
    unfold emit, raise, mbind, M_bind, mret, M_ret, getitem.
    rewrite Hchoice, Ha. eauto.
Qed.

Lemma __tf_build_layers_total dense :
  Forall tuner_spec dense →
  ∀ st t, ∃ st' t', for_each __tf_build_layer dense st t = (Ok st', t').
Proof.
  induction 1 as [|d dense Hd _ IH]; intros [model hp] t; simpl.
  - unfold mret, M_ret. eauto.
  - destruct (__tf_build_layer_total model hp d t Hd) as (st1 & t1 & Hstep).
    erewrite bind_Ok by exact Hstep. apply IH.
Qed.

Lemma __tf_build_total dense optimizer learning_rate loss metrics hp t :
  Forall tuner_spec dense →
  candidates learning_rate = true →
  ∃ model t',
    __tf_build dense optimizer learning_rate loss metrics hp t = (Ok model, t').
Proof.
  intros Hdense Hlr. unfold __tf_build, Sequential_new.
  erewrite bind_Ok; last first.
  { erewrite bind_Ok by (by apply global_name_bound).
    unfold emit, mbind, M_bind, mret, M_ret. reflexivity. }
  destruct (__tf_build_layers_total dense Hdense (mkSequential [] None, hp)
              (t ++ [call_Sequential])) as ([model1 hp1] & t1 & Hloop).
  erewrite bind_Ok by exact Hloop.
  destruct (optimizer_eq_str optimizer "adam").
  - destruct (Choice_total "learning_rate" learning_rate hp1 Hlr)
      as (lr & hp2 & Hchoice).
    erewrite bind_Ok; last first.
    { erewrite bind_Ok by (by apply global_name_bound).
      unfold hp_Choice, emit, mbind, M_bind, mret, M_ret.
      rewrite Hchoice. reflexivity. }
    unfold model_compile, emit, mbind, M_bind, mret, M_ret. eauto.
  - unfold model_compile, emit, mbind, M_bind, mret, M_ret. eauto.
Qed.


End TunerFacts.

(** ** The statements at concrete inputs *)

Lemma tf_create_requires_arguments_witness :
  ([] : list (gmap string value)) = [] ∧
  run (tf_create (backend := Sample.backend) [] (OptName "adam") (Some "mse")
         (Some ["mae"]) None) =
    (Raise (ValueError "dense, loss, and metrics are required arguments"), []).
Proof.
  split; [reflexivity|].
  apply (tf_create_requires_arguments (backend := Sample.backend)).
  left. reflexivity.
Defined.

Lemma sample_dense_specifications : layer_specifications Sample.dense.
Proof.
  intros [|[|i]] v Hv; simpl in Hv; simplify_eq.
  - split; [by eexists|]. split; [by eexists|]. split; [done|by eexists].
  - split; [by eexists|]. split; [by eexists|].
    split; [intros [? Hs]; discriminate Hs | discriminate].
Defined.


Lemma tf_create_loads_model_path_witness :
  "model.keras" ≠ "" ∧
  run (tf_create (backend := Sample.backend) [] (OptName "adam") None None
         (Some "model.keras")) =
    (Ok Sample.persisted, [call_load_model "model.keras"]).
Proof.
  split; [discriminate|].
  apply (tf_create_loads_model_path (backend := Sample.backend)).
  - discriminate.
  - reflexivity.
Defined.

(** C6 as stated fails on the empty string, a path that is not [None]:
    the builder validates, raises, and loads nothing. *)
Lemma tf_create_empty_model_path_counterexample :
  Some "" ≠ (None : option string) ∧
  run (tf_create (backend := Sample.backend) [] (OptName "adam") None None
         (Some "")) =
    (Raise (ValueError "dense, loss, and metrics are required arguments"), []).
Proof. split; [discriminate|reflexivity]. Qed.

Lemma tf_train_checkpoint_NameError_witness :
  "best.weights.h5" ≠ "" ∧
  (run (tf_train (backend := Sample.backend) Sample.persisted
          (Some Sample.x_train) (Some Sample.x_train) None None 500 32
          true true (Some "best.weights.h5") None 0)).1 =
    Raise (NameError "ModelCheckpoint").
Proof.
  split; [discriminate|].
  apply (tf_train_checkpoint_NameError (backend := Sample.backend)).
  discriminate.
Defined.

Lemma tf_result_interleaved_keys_witness :
  (history Sample.interleaved).*1 = ["loss"; "val_loss"; "mae"; "val_mae"] ∧
  ∃ result_df,
    tf_result_frame Sample.interleaved = Ok result_df ∧
    tf_result_group_names result_df = Ok [["loss"; "val_loss"]] ∧
    plotted (run (tf_result Sample.interleaved false (7 # 1, 5 # 1)%Q 100)).2 =
      [["loss"; "val_loss"]] ∧
    subplot_counts
      (run (tf_result Sample.interleaved false (7 # 1, 5 # 1)%Q 100)).2 = [1].
Proof.
  split; [reflexivity|].
  apply tf_result_interleaved_keys. reflexivity.
Defined.

(** C1 as stated fails: on the four interleaved keys the groups are not
    the two pairs, and the number of subplots is not two. *)
Lemma tf_result_interleaved_keys_counterexample :
  (history Sample.interleaved).*1 = ["loss"; "val_loss"; "mae"; "val_mae"] ∧
  ∃ result_df,
    tf_result_frame Sample.interleaved = Ok result_df ∧
    tf_result_group_names result_df ≠
      Ok [["loss"; "val_loss"]; ["mae"; "val_mae"]] ∧
    subplot_counts
      (run (tf_result Sample.interleaved false (7 # 1, 5 # 1)%Q 100)).2 ≠ [2].
Proof.
  split; [reflexivity|]. eexists. split; [reflexivity|].
  split; discriminate.
Qed.

Lemma tf_result_unpaired_keys_witness :
  (history Sample.unpaired).*1 = ["loss"; "acc"] ∧
  ∃ result_df,
    tf_result_frame Sample.unpaired = Ok result_df ∧
    tf_result_group_names result_df = Ok [] ∧
    plotted (run (tf_result Sample.unpaired false (7 # 1, 5 # 1)%Q 100)).2 = [] ∧
    subplot_counts
      (run (tf_result Sample.unpaired false (7 # 1, 5 # 1)%Q 100)).2 = [0].
Proof.
  split; [reflexivity|].
  apply tf_result_unpaired_keys. reflexivity.
Defined.

Lemma my_tf_linear_dense_layers_witness :
  shape Sample.x_train !! 1%nat = Some 10 ∧
  run (my_tf_linear_dense (Some Sample.x_train) [64; 32]) =
    (Ok [ {[ "units" := VInt 64; "input_shape" := VTuple [10];
             "activation" := VStr "relu" ]};
          {[ "units" := VInt 32; "activation" := VStr "relu" ]};
          {[ "units" := VInt 1; "activation" := VStr "linear" ]} ],
     []).
Proof.
  split; [reflexivity|].
  apply (my_tf_linear_dense_layers (backend := Sample.backend)
           Sample.x_train 10 64 [32] eq_refl).
Defined.

Lemma sample_tuner_dense : Forall tuner_spec Sample.tuner_dense.
Proof.
  repeat constructor; try (by eexists); eexists; split; reflexivity.
Defined.


Lemma __tf_build_shares_units_witness :
  ∃ model t',
    __tf_build Sample.tuner_dense (OptName "adam") Sample.learning_rate
      (Some "mse") (Some ["mae"]) (∅ : gmap string value) [] = (Ok model, t') ∧
    units <$> layers model = [VInt 32; VInt 32; VInt 32] ∧
    ∀ l1 l2, l1 ∈ layers model → l2 ∈ layers model → units l1 = units l2.
Proof.
  eexists _, _. split; [vm_compute; reflexivity|].
  split; [reflexivity|].
  eapply (__tf_build_shares_units (H := gmap string value) Sample.tuner_dense
            (OptName "adam") Sample.learning_rate (Some "mse") (Some ["mae"])
            ∅ []).
  vm_compute. reflexivity.
Defined.

(** * Further properties *)

(** ** The trainer, beyond the callbacks switched off *)

Lemma fit_calls_app t1 t2 : fit_calls (t1 ++ t2) = fit_calls t1 ++ fit_calls t2.
Proof. apply omap_app. Qed.

Lemma evaluate_calls_app t1 t2 :
  evaluate_calls (t1 ++ t2) = evaluate_calls t1 ++ evaluate_calls t2.
Proof. apply omap_app. Qed.

Lemma tables_app t1 t2 : tables (t1 ++ t2) = tables t1 ++ tables t2.
Proof. apply omap_app. Qed.

Lemma compile_calls_app t1 t2 :
  compile_calls (t1 ++ t2) = compile_calls t1 ++ compile_calls t2.
Proof. apply omap_app. Qed.

(** Constructing callbacks is neither fitting, nor evaluating, nor
    printing. *)
Lemma callbacks_only (cs : list callback) :
  fit_calls (call_callback <$> cs) = [] ∧
  evaluate_calls (call_callback <$> cs) = [] ∧
  tables (call_callback <$> cs) = [].
Proof. induction cs; [done|]. simpl. done. Qed.

Section TrainerMore.
Context {backend : Backend}.

Lemma tf_train_callbacks_assembled (early_stopping reduce_lr : bool)
    (checkpoint_path tensorboard_path : option string) (verbose : Z) t :
  checkpoint_path = None ∨ checkpoint_path = Some "" →
  let callbacks :=
    (if early_stopping then [EarlyStopping 10 true verbose] else []) ++
    (if reduce_lr then [ReduceLROnPlateau (1 # 10)%Q 5 verbose] else []) ++
    (if truthy tensorboard_path
     then [TensorBoard (default "" tensorboard_path) 1 true] else []) in
  tf_train_callbacks early_stopping reduce_lr checkpoint_path tensorboard_path
    verbose t = (Ok callbacks, t ++ (call_callback <$> callbacks)).
Proof.
  intros [-> | ->]; destruct early_stopping, reduce_lr,
    (truthy tensorboard_path) eqn:Htb; simpl;
    unfold tf_train_callbacks; simpl; rewrite Htb;
    unfold callback_new, emit, mbind, M_bind, mret, M_ret; simpl;
    rewrite <- ?app_assoc, ?app_nil_r; reflexivity.
Qed.

Lemma tf_train_checkpoint_raises (early_stopping reduce_lr : bool)
    (checkpoint_path : string) (tensorboard_path : option string)
    (verbose : Z) t :
  checkpoint_path ≠ "" →
  ∃ t', tf_train_callbacks early_stopping reduce_lr (Some checkpoint_path)
          tensorboard_path verbose t =
        (Raise (NameError "ModelCheckpoint"), t') ∧
        fit_calls t' = fit_calls t.
Proof.
  intros Hne. destruct checkpoint_path; [done|].
  destruct early_stopping, reduce_lr; simpl;
    unfold tf_train_callbacks; simpl;
    unfold callback_new, emit, mbind, M_bind, mret, M_ret; simpl;
    eexists; (split; [reflexivity|]);
    unfold fit_calls; rewrite ?omap_app; simpl; by rewrite ?app_nil_r.
Qed.

(** X1. With no checkpoint path (absent or the empty string) the trainer
    reaches [model.fit] exactly once; the callbacks it passes are, in
    this order, early stopping (patience 10, restoring the best weights),
    learning-rate reduction (factor 0.1, patience 5) and TensorBoard
    (histograms every epoch, graph written), each present exactly when
    its switch is on; [validation_data] is the pair [(x_test, y_test)]
    whenever [x_test] is given, even without [y_test]. *)
Theorem tf_train_fit_arguments (model : Sequential)
    (x_train y_train x_test y_test : option ndarray) (epochs batch_size : Z)
    (early_stopping reduce_lr : bool)
    (checkpoint_path tensorboard_path : option string) (verbose : Z) :
  checkpoint_path = None ∨ checkpoint_path = Some "" →
  fit_calls (run (tf_train model x_train y_train x_test y_test epochs
                    batch_size early_stopping reduce_lr checkpoint_path
                    tensorboard_path verbose)).2 =
    [ mkFit x_train y_train epochs batch_size
        (match x_test with Some _ => Some (x_test, y_test) | None => None end)
        verbose
        ((if early_stopping then [EarlyStopping 10 true verbose] else []) ++
         (if reduce_lr then [ReduceLROnPlateau (1 # 10)%Q 5 verbose] else []) ++
         (match tensorboard_path with
          | Some (String c p) => [TensorBoard (String c p) 1 true]
          | _ => []
          end)) ].
Proof.
  intros Hck. unfold run, tf_train.
  erewrite bind_Ok by (by apply tf_train_callbacks_assembled).
  unfold model_fit, lift, emit, mbind, M_bind, mret, M_ret. simpl.
  replace (if truthy tensorboard_path
           then [TensorBoard (default "" tensorboard_path) 1 true] else [])
    with (match tensorboard_path with
          | Some (String c p) => [TensorBoard (String c p) 1 true]
          | _ => []
          end) by (by destruct tensorboard_path as [[|]|]).
  replace (if is_not_None x_test then Some (x_test, y_test) else None)
    with (match x_test with Some _ => Some (x_test, y_test) | None => None end)
    by (by destruct x_test).
  destruct (callbacks_only
              ((if early_stopping then [EarlyStopping 10 true verbose] else []) ++
               (if reduce_lr then [ReduceLROnPlateau (1 # 10)%Q 5 verbose]
                else []) ++
               (match tensorboard_path with
                | Some (String c p) => [TensorBoard (String c p) 1 true]
                | _ => []
                end))) as (Hcb & _ & _).
  destruct (keras_fit _ _) as [h|e]; simpl.
  - destruct (tf_train_evaluate _ _ _ _ _ _) as [r t'] eqn:Hev.
    apply tf_train_evaluate_calls in Hev as [Hfit _].
    destruct r; simpl; rewrite Hfit, fit_calls_app, Hcb; reflexivity.
  - rewrite fit_calls_app, Hcb. reflexivity.
Qed.

(** X2. When fitting and evaluating succeed (no checkpoint path), the
    trainer returns the history exactly as [model.fit] produced it, and
    prints one table whose rows are the evaluation on the training split,
    labelled [train], then on the test split, labelled [test]; a split is
    evaluated only when both its features and its targets are given. *)
Theorem tf_train_reports_splits (model : Sequential)
    (x_train y_train x_test y_test : option ndarray) (epochs batch_size : Z)
    (early_stopping reduce_lr : bool)
    (checkpoint_path tensorboard_path : option string) (verbose : Z)
    (h : History) (scores : ndarray → ndarray → list (string * Q)) :
  checkpoint_path = None ∨ checkpoint_path = Some "" →
  (∀ a, keras_fit model a = Ok h) →
  (∀ x y, keras_evaluate model x y = Ok (scores x y)) →
  let out := run (tf_train model x_train y_train x_test y_test epochs
                    batch_size early_stopping reduce_lr checkpoint_path
                    tensorboard_path verbose) in
  out.1 = Ok h ∧
  tables out.2 =
    [ SplitRows
        (match x_train, y_train with
         | Some x, Some y => [("train", scores x y)]
         | _, _ => []
         end ++
         match x_test, y_test with
         | Some x, Some y => [("test", scores x y)]
         | _, _ => []
         end) ] ∧
  evaluate_calls out.2 =
    match x_train, y_train with Some x, Some y => [(x, y)] | _, _ => [] end ++
    match x_test, y_test with Some x, Some y => [(x, y)] | _, _ => [] end.
Proof.
  intros Hck Hfit Hev out. subst out. unfold run, tf_train.
  erewrite bind_Ok by (by apply tf_train_callbacks_assembled).
  unfold model_fit, lift, emit, mbind, M_bind, mret, M_ret.
  rewrite Hfit. simpl.
  match goal with |- context [call_callback <$> ?cs] =>
    destruct (callbacks_only cs) as (_ & Hcbe & Hcbt) end.
  unfold tf_train_evaluate, model_evaluate, my_pretty_table, lift, emit,
    mbind, M_bind, mret, M_ret.
  destruct x_train as [xt|], y_train as [yt|], x_test as [xs|],
    y_test as [ys|]; simpl; rewrite ?Hev; simpl;
    rewrite ?tables_app, ?evaluate_calls_app, Hcbe, Hcbt; done.
Qed.

(** X3. A failure of [model.fit] is passed on unchanged (no checkpoint
    path): the trainer raises the same exception, evaluates nothing and
    prints no table. *)
Theorem tf_train_fit_failure (model : Sequential)
    (x_train y_train x_test y_test : option ndarray) (epochs batch_size : Z)
    (early_stopping reduce_lr : bool)
    (checkpoint_path tensorboard_path : option string) (verbose : Z)
    (e : exn) :
  checkpoint_path = None ∨ checkpoint_path = Some "" →
  (∀ a, keras_fit model a = Raise e) →
  let out := run (tf_train model x_train y_train x_test y_test epochs
                    batch_size early_stopping reduce_lr checkpoint_path
                    tensorboard_path verbose) in
  out.1 = Raise e ∧ evaluate_calls out.2 = [] ∧ tables out.2 = [].
Proof.
  intros Hck Hfit out. subst out. unfold run, tf_train.
  erewrite bind_Ok by (by apply tf_train_callbacks_assembled).
  unfold model_fit, lift, emit, mbind, M_bind, mret, M_ret.
  rewrite Hfit. simpl.
  match goal with |- context [call_callback <$> ?cs] =>
    destruct (callbacks_only cs) as (_ & Hcbe & Hcbt) end.
  by rewrite tables_app, evaluate_calls_app, Hcbe, Hcbt.
Qed.

End TrainerMore.

(** ** The model builder, beyond well-formed specifications *)

Section BuilderMore.
Context {backend : Backend}.

(** One pass of the loop either adds a layer or stops on a missing key;
    it never compiles. *)
Lemma tf_create_layer_cases (model : Sequential) (v : gmap string value) t :
  (∃ l, mirrors v l ∧
     tf_create_layer model v t =
       (Ok (mkSequential (layers model ++ [l]) (compiled model)),
        t ++ layer_calls l)) ∨
  (∃ k, (k = "units" ∨ k = "activation") ∧ v !! k = None ∧
     tf_create_layer model v t = (Raise (KeyError k), t)).
Proof.
  destruct (v !! "units") as [u|] eqn:Hu; last first.
  { right. exists "units". split; [by left|]. split; [done|].
    unfold tf_create_layer.
    destruct (contains "input_shape" v);
      (erewrite bind_Ok by (by apply global_name_bound));
      unfold getitem, raise, mbind, M_bind; by rewrite Hu. }
  destruct (v !! "activation") as [a|] eqn:Ha; last first.
  { right. exists "activation". split; [by right|]. split; [done|].
    unfold tf_create_layer.
    destruct (v !! "input_shape") as [s|] eqn:Hs.
    - rewrite (contains_true _ _ _ Hs).
      erewrite bind_Ok by (by apply global_name_bound).
      erewrite bind_Ok by (by apply getitem_Some).
      erewrite bind_Ok by (by apply getitem_Some).
      unfold getitem, raise, mbind, M_bind. by rewrite Ha.
    - rewrite (contains_false _ _ Hs).
      erewrite bind_Ok by (by apply global_name_bound).
      erewrite bind_Ok by (by apply getitem_Some).
      unfold getitem, raise, mbind, M_bind. by rewrite Ha. }
  left. destruct (tf_create_layer_mirrors model v t) as (l & Hl & Hstep);
    [by eexists..|]. by exists l.
Qed.

Lemma tf_create_layers_missing_key (dense : list (gmap string value)) :
  Exists (λ v, v !! "units" = None ∨ v !! "activation" = None) dense →
  ∀ model t, ∃ k t',
    (k = "units" ∨ k = "activation") ∧
    for_each tf_create_layer dense model t = (Raise (KeyError k), t') ∧
    compile_calls t' = compile_calls t.
Proof.
  induction dense as [|v dense IH]; intros Hbad model t.
  { by apply Exists_nil in Hbad. }
  destruct (tf_create_layer_cases model v t)
    as [(l & Hl & Hstep) | (k & Hk & Hnone & Hstep)].
  - apply Exists_cons in Hbad as [Hbad | Hbad].
    { destruct Hl as (Hu & Ha & _). destruct Hbad; congruence. }
    destruct (IH Hbad (mkSequential (layers model ++ [l]) (compiled model))
                (t ++ layer_calls l)) as (k & t' & Hk & Hrest & Hcompile).
    exists k, t'. split; [done|]. split.
    + simpl. erewrite bind_Ok by exact Hstep. exact Hrest.
    + rewrite Hcompile, compile_calls_app. simpl. by rewrite app_nil_r.
  - exists k, t. split; [done|]. split; [|done].
    simpl. by erewrite bind_Raise by exact Hstep.
Qed.



End BuilderMore.

(** ** The reporter on arbitrary histories *)

Lemma list_index_Ok x l k : list_index x l = Ok k → 0 ≤ k ∧ x ∈ l.
Proof.
  revert k. induction l as [|y l IH]; intros k; simpl; [done|].
  destruct (String.eqb y x) eqn:Heq.
  - apply String.eqb_eq in Heq as ->. intros [= <-]. split; [lia|left].
  - destruct (list_index x l) as [k'|e]; [|done].
    intros [= <-]. destruct (IH k' eq_refl). split; [lia|by right].
Qed.

Lemma list_index_elem_of x l : x ∈ l → ∃ k, list_index x l = Ok k ∧ 0 ≤ k.
Proof.
  induction l as [|y l IH]; intros Hin; [by apply elem_of_nil in Hin|].
  simpl. destruct (String.eqb y x) eqn:Heq.
  - exists 0. split; [done|lia].
  - apply elem_of_cons in Hin as [->|Hin].
    { by rewrite String.eqb_refl in Heq. }
    destruct (IH Hin) as (k & -> & Hk). exists (k + 1). split; [done|lia].
Qed.

(** The indices [range(j, j + n)]. *)
Lemma range_seq (n : nat) : range 0 (Z.of_nat n) = Z.of_nat <$> seq 0 n.
Proof. unfold range. by rewrite Z.sub_0_r, Nat2Z.id. Qed.

Lemma Qplus_inject_Z_1 (k : nat) :
  Qplus (inject_Z (Z.of_nat k)) 1 = inject_Z (Z.of_nat (S k)).
Proof. unfold Qplus, inject_Z. simpl. f_equal. lia. Qed.

Lemma set_column_find name values cols :
  ∃ i, list_find (λ kv : string * list Q, kv.1 = name)
         (set_column name values cols) = Some (i, (name, values)).
Proof.
  induction cols as [|[k v] cols [i IH]]; simpl.
  - exists 0%nat. by rewrite decide_True.
  - destruct (String.eqb k name) eqn:Heq.
    + apply String.eqb_eq in Heq as ->. exists 0%nat. simpl.
      by rewrite decide_True.
    + apply String.eqb_neq in Heq. simpl. rewrite decide_False by done.
      rewrite IH. by exists (S i).
Qed.

Lemma set_column_filter name values cols :
  filter (λ kv : string * list Q, kv.1 ≠ name) (set_column name values cols) =
  filter (λ kv : string * list Q, kv.1 ≠ name) cols.
Proof.
  induction cols as [|[k v] cols IH]; simpl.
  - by rewrite filter_cons_False by (simpl; intros ?; done).
  - destruct (String.eqb k name) eqn:Heq.
    + apply String.eqb_eq in Heq as ->.
      rewrite !filter_cons_False by (simpl; intros ?; done). done.
    + apply String.eqb_neq in Heq.
      rewrite !filter_cons_True by done. by rewrite IH.
Qed.

Lemma tf_result_frame_total (result : History) :
  tf_result_frame result =
    Ok (mkDataFrame
          ((λ k, inject_Z (Z.of_nat k)) <$>
             seq 1 (match history result with
                    | [] => 0%nat
                    | (_, col) :: _ => length col
                    end))
          (filter (λ kv, kv.1 ≠ "epochs") (history result))).
Proof.
  unfold tf_result_frame, df_set_index, df_setitem, DataFrame_of_dict. simpl.
  destruct (set_column_find "epochs"
    ((λ k, Qplus k 1) <$>
       ((λ k, inject_Z (Z.of_nat k)) <$>
          seq 0 (match history result with
                 | [] => 0%nat
                 | (_, col) :: _ => length col
                 end)))
    (history result)) as [i ->].
  rewrite set_column_filter. f_equal. f_equal.
  rewrite <- list_fmap_compose, <- fmap_S_seq, <- list_fmap_compose.
  apply list_fmap_ext. intros _ k _. simpl. apply Qplus_inject_Z_1.
Qed.


Lemma group_names_loop_groups columns indices :
  ∀ group_names groups,
    group_names_loop columns indices group_names = Ok groups →
    Forall (group_of columns) group_names →
    Forall (group_of columns) groups ∧
    (length groups ≤ length group_names + length indices)%nat.
Proof.
  induction indices as [|i indices IH]; intros acc groups; simpl.
  { intros [= <-] Hacc. split; [done|lia]. }
  destruct (columns !! Z.to_nat i) as [ci|] eqn:Hci; [|done].
  destruct (String.eqb (str_prefix 3 ci) "val") eqn:Hval.
  { intros [= <-] Hacc. split; [done|lia]. }
  apply String.eqb_neq in Hval.
  assert (Hin : ci ∈ columns) by (by eapply list_elem_of_lookup_2).
  destruct (list_index ("val_" +:+ ci) (drop (Z.to_nat (i + 1)) columns))
    as [k|e] eqn:Hidx; simpl.
  - apply list_index_Ok in Hidx as [Hk Hpair].
    assert ((k >? -1) = true) as -> by lia.
    intros Hloop Hacc. apply IH in Hloop as [Hg Hlen].
    + split; [done|]. rewrite length_app in Hlen. simpl in Hlen. lia.
    + apply Forall_app. split; [done|]. constructor; [|done].
      exists ci. split; [done|]. split; [done|]. right. split; [done|].
      eapply subseteq_drop. exact Hpair.
  - intros Hloop Hacc. apply IH in Hloop as [Hg Hlen].
    + split; [done|]. rewrite length_app in Hlen. simpl in Hlen. lia.
    + apply Forall_app. split; [done|]. constructor; [|done].
      exists ci. split; [done|]. split; [done|]. by left.
Qed.

Lemma group_names_loop_in_range columns indices :
  Forall (λ i, (Z.to_nat i < length columns)%nat) indices →
  ∀ group_names, ∃ groups,
    group_names_loop columns indices group_names = Ok groups.
Proof.
  induction 1 as [|i indices Hi _ IH]; intros acc; simpl; [by eexists|].
  destruct (lookup_lt_is_Some_2 columns (Z.to_nat i) Hi) as [ci ->].
  destruct (String.eqb _ _); [by eexists|].
  destruct (_ >? _); apply IH.
Qed.

Lemma tf_result_group_names_total (df : DataFrame) :
  ∃ groups, tf_result_group_names df = Ok groups.
Proof.
  unfold tf_result_group_names. apply group_names_loop_in_range.
  unfold range. apply Forall_fmap, list.Forall_forall. intros k Hk. simpl.
  apply elem_of_seq in Hk. lia.
Qed.

(** X7. Each group the reporter builds is headed by a column that does
    not start with [val], and is either that column alone or that column
    followed by its [val_] counterpart, which is then a column too; and
    a history with [n] keys yields at most [n - 2] groups, so none at all
    when it has fewer than three keys. *)
Theorem tf_result_groups_shape (result : History) (result_df : DataFrame)
    (groups : list (list string)) :
  tf_result_frame result = Ok result_df →
  tf_result_group_names result_df = Ok groups →
  Forall (group_of (columns_of result_df)) groups ∧
  (length groups ≤ length (history result) - 2)%nat.
Proof.
  intros Hframe Hgroups. unfold tf_result_group_names in Hgroups.
  apply group_names_loop_groups in Hgroups as [Hshape Hlen]; [|done].
  split.
  - eapply list.Forall_impl; [exact Hshape|].
    intros g (c & Hc & Hval & Hg). exists c.
    assert (Hsub : ∀ x, x ∈ drop_last (columns_of result_df) →
                        x ∈ columns_of result_df).
    { intros x. unfold drop_last. apply subseteq_take. }
    split; [by apply Hsub|]. split; [done|].
    destruct Hg as [?|[? ?]]; [by left|right]. split; [done|by apply Hsub].
  - rewrite tf_result_frame_total in Hframe. simplify_eq.
    simpl in Hlen. unfold range, drop_last in Hlen.
    rewrite length_fmap, length_seq, length_take in Hlen.
    unfold columns_of in Hlen. simpl in Hlen. rewrite length_fmap in Hlen.
    pose proof (length_filter (λ kv : string * list Q, kv.1 ≠ "epochs")
                  (history result)). lia.
Qed.

Lemma tf_result_plot_at (groups : list (list string)) (i : nat) y t :
  groups !! i = Some y →
  tf_result_plot groups () (Z.of_nat i) t =
    (Ok (), t ++ [call_plot y (Z.of_nat i); call_grid (Z.of_nat i)]).
Proof.
  intros Hy. unfold tf_result_plot. rewrite Nat2Z.id, Hy.
  unfold emit, mbind, M_bind, mret, M_ret. by rewrite <- app_assoc.
Qed.

Lemma tf_result_plot_loop (post : list (list string)) :
  ∀ (pre : list (list string)) t,
    for_each (tf_result_plot (pre ++ post))
      (Z.of_nat <$> seq (length pre) (length post)) () t =
    (Ok (), t ++ mjoin (imap (λ i y, [call_plot y (Z.of_nat (length pre + i));
                                      call_grid (Z.of_nat (length pre + i))])
                          post)).
Proof.
  induction post as [|y post IH]; intros pre t.
  - simpl. by rewrite app_nil_r.
  - cbn [length seq fmap list_fmap for_each imap mjoin list_join].
    erewrite bind_Ok; last first.
    { apply tf_result_plot_at. rewrite lookup_app_r by lia.
      by rewrite Nat.sub_diag. }
    replace (pre ++ y :: post) with ((pre ++ [y]) ++ post)
      by (by rewrite <- app_assoc).
    replace (S (length pre)) with (length (pre ++ [y]))
      by (rewrite length_app; simpl; lia).
    rewrite (IH (pre ++ [y])). rewrite Nat.add_0_r, <- !app_assoc. simpl.
    do 5 f_equal. apply imap_ext. intros i x _. simpl.
    rewrite length_app. simpl.
    by replace (length pre + 1 + i)%nat with (length pre + S i)%nat by lia.
Qed.


Lemma group_names_loop_step columns (j : nat) indices group_names ci :
  columns !! j = Some ci →
  group_names_loop columns (Z.of_nat j :: indices) group_names =
    if String.eqb (str_prefix 3 ci) "val" then Ok group_names
    else if try_except (list_index ("val_" +:+ ci) (drop (S j) columns)) (-1)
              >? -1
         then group_names_loop columns indices
                (group_names ++ [[ci; "val_" +:+ ci]])
         else group_names_loop columns indices (group_names ++ [[ci]]).
Proof.
  intros Hci. simpl. rewrite Nat2Z.id, Hci.
  by replace (Z.to_nat (Z.of_nat j + 1)) with (S j) by lia.
Qed.

Lemma range_pred (n : nat) :
  range 0 (Z.of_nat n - 1) = Z.of_nat <$> seq 0 (n - 1).
Proof.
  unfold range.
  by replace (Z.to_nat (Z.of_nat n - 1 - 0)) with (n - 1)%nat by lia.
Qed.

Lemma drop_last_snoc {A} (l : list A) (x : A) : drop_last (l ++ [x]) = l.
Proof.
  unfold drop_last. rewrite length_app. simpl.
  replace (length l + 1 - 1)%nat with (length l) by lia.
  by rewrite take_app_length.
Qed.

(** The scan over plain keys followed by their [val_] counterparts. *)
Lemma group_names_loop_paired (post : list string) :
  ∀ (pre : list string) group_names (n : nat),
    Forall (λ m, str_prefix 3 m ≠ "val") post →
    (length post ≤ n)%nat →
    (length pre + n ≤ 2 * (length pre + length post))%nat →
    group_names_loop
      ((pre ++ post) ++ (String.append "val_" <$> (pre ++ post)))
      (Z.of_nat <$> seq (length pre) n) group_names =
    Ok (group_names ++ ((λ m, [m; "val_" +:+ m]) <$> post)).
Proof.
  induction post as [|m post IH]; intros pre acc n Hplain Hn Hbound.
  - cbn [fmap list_fmap]. rewrite !app_nil_r.
    destruct n as [|n]; [done|].
    destruct pre as [|p pre]; [simpl in Hbound; lia|].
    cbn [seq fmap list_fmap].
    rewrite (group_names_loop_step _ _ _ _ ("val_" +:+ p)); [done|].
    rewrite lookup_app_r by lia. by rewrite Nat.sub_diag.
  - apply list.Forall_cons in Hplain as [Hm Hplain].
    destruct n as [|n]; [simpl in Hn; lia|].
    cbn [seq fmap list_fmap].
    rewrite (group_names_loop_step _ _ _ _ m); last first.
    { rewrite <- app_assoc. rewrite lookup_app_r by lia.
      by rewrite Nat.sub_diag. }
    apply String.eqb_neq in Hm. rewrite Hm.
    destruct (list_index_elem_of ("val_" +:+ m)
                (drop (S (length pre))
                   ((pre ++ m :: post) ++
                    (String.append "val_" <$> (pre ++ m :: post)))))
      as (k & -> & Hk).
    { rewrite drop_app_le by (rewrite length_app; simpl; lia).
      apply elem_of_app. right. apply list_elem_of_fmap. exists m.
      split; [done|]. apply elem_of_app. right. left. }
    simpl. assert ((k >? -1) = true) as -> by lia.
    replace (pre ++ m :: post) with ((pre ++ [m]) ++ post)
      by (by rewrite <- app_assoc).
    replace (S (length pre)) with (length (pre ++ [m]))
      by (rewrite length_app; simpl; lia).
    rewrite IH.
    + by rewrite <- app_assoc.
    + done.
    + simpl in Hn. lia.
    + rewrite length_app. simpl in *. lia.
Qed.

(** X9. When the plain keys, none starting with [val], come first, then
    their [val_] counterparts in the same order, then exactly one more
    column, the groups are the pairs (key, [val_] key), one per plain
    key and in the keys' order. *)
Theorem tf_result_pairs_then_one_more (result_df : DataFrame)
    (ms : list string) (extra : string) :
  Forall (λ m, str_prefix 3 m ≠ "val") ms →
  columns_of result_df = ms ++ (String.append "val_" <$> ms) ++ [extra] →
  tf_result_group_names result_df = Ok ((λ m, [m; "val_" +:+ m]) <$> ms).
Proof.
  intros Hplain Hcols. unfold tf_result_group_names.
  rewrite Hcols, app_assoc, drop_last_snoc, range_pred.
  rewrite length_app, length_fmap.
  apply (group_names_loop_paired ms [] [] (length ms + length ms - 1) Hplain);
    simpl; lia.
Qed.

(** ** The orchestrators end to end *)

Section OrchestratorMore.
Context {backend : Backend}.

Lemma tf_train_succeeds (model : Sequential)
    (x_train y_train x_test y_test : option ndarray) (epochs batch_size : Z)
    (early_stopping reduce_lr : bool)
    (checkpoint_path tensorboard_path : option string) (verbose : Z)
    (h : History) (scores : ndarray → ndarray → list (string * Q)) t :
  checkpoint_path = None ∨ checkpoint_path = Some "" →
  (∀ a, keras_fit model a = Ok h) →
  (∀ x y, keras_evaluate model x y = Ok (scores x y)) →
  ∃ t', tf_train model x_train y_train x_test y_test epochs batch_size
          early_stopping reduce_lr checkpoint_path tensorboard_path verbose t =
        (Ok h, t').
Proof.
  intros Hck Hfit Hev. unfold tf_train.
  erewrite bind_Ok by (by apply tf_train_callbacks_assembled).
  unfold model_fit, lift, emit, mbind, M_bind, mret, M_ret.
  rewrite Hfit.
  unfold tf_train_evaluate, model_evaluate, my_pretty_table, lift, emit,
    mbind, M_bind, mret, M_ret.
  destruct x_train, y_train, x_test, y_test; simpl; rewrite ?Hev; simpl;
    eauto.
Qed.

Lemma tf_result_succeeds (result : History) (history_table : bool)
    (figsize : Q * Q) (dpi : Z) t :
  ∃ t', tf_result result history_table figsize dpi t = (Ok (), t').
Proof.
  destruct (tf_result_group_names_total
    (mkDataFrame
       ((λ k, inject_Z (Z.of_nat k)) <$>
          seq 1 (match history result with
                 | [] => 0%nat
                 | (_, col) :: _ => length col
                 end))
       (filter (λ kv, kv.1 ≠ "epochs") (history result)))) as [groups Hg].
  unfold tf_result.
  erewrite bind_Ok by (by apply global_name_bound).
  rewrite tf_result_frame_total.
  erewrite bind_Ok by reflexivity.
  rewrite Hg.
  erewrite bind_Ok by reflexivity.
  erewrite bind_Ok by (by apply global_name_bound).
  erewrite bind_Ok by reflexivity.
  rewrite range_seq.
  erewrite bind_Ok by apply (tf_result_plot_loop groups []).
  unfold my_pretty_table.
  destruct history_table; simpl;
    unfold emit, mbind, M_bind, mret, M_ret; simpl; eauto.
Qed.

Lemma my_tf_returns_built (x_train y_train x_test y_test : option ndarray)
    (dense : list (gmap string value)) (optimizer : optimizer)
    (loss : option string) (metrics : option (list string))
    (epochs batch_size : Z) (early_stopping reduce_lr : bool)
    (checkpoint_path model_path tensorboard_path : option string)
    (verbose : Z) (history_table : bool) (figsize : Q * Q) (dpi : Z)
    (model : Sequential) (h : History)
    (scores : ndarray → ndarray → list (string * Q)) (t t1 : list call) :
  checkpoint_path = None ∨ checkpoint_path = Some "" →
  tf_create dense optimizer loss metrics model_path t = (Ok model, t1) →
  (∀ a, keras_fit model a = Ok h) →
  (∀ x y, keras_evaluate model x y = Ok (scores x y)) →
  ∃ t',
    my_tf x_train y_train x_test y_test dense optimizer loss metrics epochs
      batch_size early_stopping reduce_lr checkpoint_path model_path
      tensorboard_path verbose history_table figsize dpi t = (Ok model, t').
Proof.
  intros Hck Hcreate Hfit Hev. unfold my_tf.
  erewrite bind_Ok by exact Hcreate.
  destruct (tf_train_succeeds model x_train y_train x_test y_test epochs
              batch_size early_stopping reduce_lr checkpoint_path
              tensorboard_path verbose h scores t1 Hck Hfit Hev) as [t2 Htrain].
  erewrite bind_Ok by exact Htrain.
  destruct (tf_result_succeeds h history_table figsize dpi t2) as [t3 Hres].
  erewrite bind_Ok by exact Hres.
  by eexists.
Qed.

(** The builder on the specifications [my_tf_linear] writes after the
    first one. *)
Lemma tf_create_layers_linear (us : list Z) :
  ∀ model t, ∃ t',
    for_each tf_create_layer
      (((λ v, {[ "units" := VInt v; "activation" := VStr "relu" ]}) <$> us)
       ++ [ {[ "units" := VInt 1; "activation" := VStr "linear" ]} ])
      model t =
    (Ok (mkSequential
           (layers model ++
            ((λ v, mkDense (VInt v) None (VStr "relu") (Some __initializer__))
               <$> us)
            ++ [mkDense (VInt 1) None (VStr "linear") (Some __initializer__)])
           (compiled model)), t').
Proof.
  assert (Hstep : ∀ (u : Z) (a : string) model t,
    tf_create_layer model
      {[ "units" := VInt u; "activation" := VStr a ]} t =
    (Ok (mkSequential
           (layers model ++ [mkDense (VInt u) None (VStr a)
                               (Some __initializer__)])
           (compiled model)),
     t ++ layer_calls (mkDense (VInt u) None (VStr a) (Some __initializer__)))).
  { intros u a model t. unfold tf_create_layer.
    rewrite contains_false by reflexivity.
    erewrite bind_Ok by (by apply global_name_bound).
    erewrite bind_Ok by (by apply getitem_Some).
    erewrite bind_Ok by (by apply getitem_Some).
    unfold Dense_new, model_add, emit, mbind, M_bind, mret, M_ret. simpl.
    by rewrite <- app_assoc. }
  induction us as [|u us IH]; intros model t;
    cbn [fmap list_fmap app for_each].
  - erewrite bind_Ok by apply Hstep. unfold mret, M_ret. by eexists.
  - destruct (IH (mkSequential
                    (layers model ++ [mkDense (VInt u) None (VStr "relu")
                                        (Some __initializer__)])
                    (compiled model))
                (t ++ layer_calls (mkDense (VInt u) None (VStr "relu")
                                     (Some __initializer__)))) as [t' Hrest].
    exists t'. erewrite bind_Ok by apply Hstep.
    etrans; [exact Hrest|]. simpl. by rewrite <- app_assoc.
Qed.


Lemma tf_create_layers_no_fit (dense : list (gmap string value)) :
  ∀ model t r t',
    for_each tf_create_layer dense model t = (r, t') →
    fit_calls t' = fit_calls t.
Proof.
  induction dense as [|v dense IH]; intros model t r t'; simpl.
  { unfold mret, M_ret. by intros [= _ <-]. }
  destruct (tf_create_layer_cases model v t)
    as [(l & _ & Hstep) | (k & _ & _ & Hstep)].
  - erewrite bind_Ok by exact Hstep. intros Hrest.
    apply IH in Hrest. rewrite Hrest, fit_calls_app. simpl.
    by rewrite app_nil_r.
  - erewrite bind_Raise by exact Hstep. by intros [= _ <-].
Qed.

(** The builder never trains. *)
Lemma tf_create_no_fit (dense : list (gmap string value)) optimizer loss
    metrics model_path t r t' :
  tf_create dense optimizer loss metrics model_path t = (r, t') →
  fit_calls t' = fit_calls t.
Proof.
  unfold tf_create. destruct (truthy model_path).
  { unfold load_model.
    erewrite bind_Ok by (by apply global_name_bound).
    unfold emit, raise, mbind, M_bind, mret, M_ret.
    destruct (saved_models !! _); intros [= _ <-];
      rewrite fit_calls_app; simpl; by rewrite app_nil_r. }
  destruct (_ || _). { by intros [= _ <-]. }
  unfold Sequential_new.
  erewrite bind_Ok; last first.
  { erewrite bind_Ok by (by apply global_name_bound).
    unfold emit, mbind, M_bind, mret, M_ret. reflexivity. }
  unfold mbind at 1, M_bind at 1.
  destruct (for_each _ _ _ _) as [[model|e] t1] eqn:Hloop;
    apply tf_create_layers_no_fit in Hloop;
    rewrite fit_calls_app in Hloop; simpl in Hloop;
    rewrite app_nil_r in Hloop.
  - unfold model_compile, emit, mbind, M_bind, mret, M_ret.
    intros [= _ <-]. rewrite fit_calls_app. simpl.
    by rewrite app_nil_r.
  - by intros [= _ <-].
Qed.

(** X11. With a checkpoint path the generic orchestrator cannot finish:
    whenever the builder returns a model, [my_tf] raises [NameError] on
    [ModelCheckpoint] without a single [model.fit]. *)
Theorem my_tf_checkpoint_NameError
    (x_train y_train x_test y_test : option ndarray)
    (dense : list (gmap string value)) (optimizer : optimizer)
    (loss : option string) (metrics : option (list string))
    (epochs batch_size : Z) (early_stopping reduce_lr : bool)
    (checkpoint_path : string) (model_path tensorboard_path : option string)
    (verbose : Z) (history_table : bool) (figsize : Q * Q) (dpi : Z)
    (model : Sequential) (t1 : list call) :
  checkpoint_path ≠ "" →
  run (tf_create dense optimizer loss metrics model_path) = (Ok model, t1) →
  let out := run (my_tf x_train y_train x_test y_test dense optimizer loss
                    metrics epochs batch_size early_stopping reduce_lr
                    (Some checkpoint_path) model_path tensorboard_path verbose
                    history_table figsize dpi) in
  out.1 = Raise (NameError "ModelCheckpoint") ∧ fit_calls out.2 = [].
Proof.
  intros Hck Hcreate out. subst out. unfold run in *. unfold my_tf.
  erewrite bind_Ok by exact Hcreate.
  destruct (tf_train_checkpoint_raises early_stopping reduce_lr
              checkpoint_path tensorboard_path verbose t1 Hck)
    as (t2 & Hcb & Hfit).
  unfold tf_train.
  erewrite bind_Raise; last first.
  { erewrite bind_Raise by exact Hcb. reflexivity. }
  split; [done|]. simpl. rewrite Hfit.
  by apply tf_create_no_fit in Hcreate.
Qed.


(** X13. The width of the training features is read only for a first
    hidden layer: with one-dimensional features and at least one hidden
    width the linear-regression orchestrator raises [IndexError] before
    any call is made, while with no hidden width the derived sequence is
    the single [linear] output layer, without [input_shape]. *)
Theorem my_tf_linear_feature_width (x_train : ndarray)
    (y_train x_test y_test : option ndarray) (u : Z) (us : list Z)
    (optimizer : optimizer) (loss : option string)
    (metrics : option (list string)) (epochs batch_size : Z)
    (early_stopping reduce_lr : bool)
    (model_path checkpoint_path tensorboard_path : option string)
    (verbose : Z) (history_table : bool) (figsize : Q * Q) (dpi : Z)
    (t : list call) :
  shape x_train !! 1%nat = None →
  my_tf_linear (Some x_train) y_train x_test y_test (u :: us) optimizer loss
    metrics epochs batch_size early_stopping reduce_lr model_path
    checkpoint_path tensorboard_path verbose history_table figsize dpi t =
    (Raise (IndexError "tuple index out of range"), t) ∧
  my_tf_linear_dense (Some x_train) [] t =
    (Ok [ {[ "units" := VInt 1; "activation" := VStr "linear" ]} ], t).
Proof.
  intros Hn. split; [|reflexivity].
  unfold my_tf_linear, my_tf_linear_dense. rewrite enumerate_cons. simpl.
  unfold raise, mbind, M_bind, mret, M_ret. by rewrite Hn.
Qed.

End OrchestratorMore.

(** ** The hypermodel, whatever the container does *)

Section TunerMore.
Context {H : Type} {hyper : HyperParameters H} {tuner : Tuner H}.

Lemma __tf_build_layer_inv model hp d t model' hp' t' :
  __tf_build_layer (model, hp) d t = (Ok (model', hp'), t') →
  ∃ l,
    layers model' = layers model ++ [l] ∧
    compiled model' = compiled model ∧
    d !! "activation" = Some (activation l) ∧
    d !! "input_shape" = input_shape l ∧
    kernel_initializer l = None.
Proof.
  unfold __tf_build_layer, hp_Choice, getitem, Dense_new, model_add.
  destruct (d !! "input_shape") as [s|] eqn:Hs.
  - rewrite (contains_true _ _ _ Hs).
    erewrite bind_Ok by (by apply global_name_bound).
    unfold emit, raise, mbind, M_bind, mret, M_ret.
    intros Hstep.
    repeat (case_match; simplify_eq); simpl in *; simplify_eq.
    eexists (mkDense _ _ _ _). simpl. eauto.
  - rewrite (contains_false _ _ Hs).
    erewrite bind_Ok by (by apply global_name_bound).
    unfold emit, raise, mbind, M_bind, mret, M_ret.
    intros Hstep.
    repeat (case_match; simplify_eq); simpl in *; simplify_eq.
    eexists (mkDense _ _ _ _). simpl. eauto.
Qed.

Lemma __tf_build_layers_inv dense :
  ∀ model hp t model' hp' t',
    for_each __tf_build_layer dense (model, hp) t = (Ok (model', hp'), t') →
    ∃ built,
      layers model' = layers model ++ built ∧
      compiled model' = compiled model ∧
      Forall2 (λ d l,
        d !! "activation" = Some (activation l) ∧
        d !! "input_shape" = input_shape l ∧
        kernel_initializer l = None) dense built.
Proof.
  induction dense as [|d dense IH]; intros model hp t model' hp' t';
    cbn [for_each].
  - unfold mret, M_ret. intros [= <- <- <-]. exists [].
    rewrite app_nil_r. by repeat split.
  - unfold mbind, M_bind.
    destruct (__tf_build_layer (model, hp) d t) as [[[m1 hp1]|e] t1] eqn:Hstep;
      [|done].
    intros Hrest. apply __tf_build_layer_inv in Hstep
      as (l & Hl & Hc & Ha & Hs & Hi).
    apply IH in Hrest as (built & Hb & Hc' & Hall).
    exists (l :: built). rewrite Hb, Hl, <- app_assoc. split; [done|].
    split; [congruence|]. by constructor.
Qed.

Lemma __tf_build_inv dense optimizer learning_rate loss metrics hp t model t' :
  __tf_build dense optimizer learning_rate loss metrics hp t = (Ok model, t') →
  ∃ opt,
    compiled model = Some (mkCompile opt loss metrics) ∧
    (if optimizer_eq_str optimizer "adam"
     then ∃ lr, opt = Some (Adam lr) else opt = None) ∧
    Forall2 (λ d l,
      d !! "activation" = Some (activation l) ∧
      d !! "input_shape" = input_shape l ∧
      kernel_initializer l = None) dense (layers model).
Proof.
  unfold __tf_build, Sequential_new. intros Hbuild.
  erewrite bind_Ok in Hbuild; last first.
  { erewrite bind_Ok by (by apply global_name_bound).
    unfold emit, mbind, M_bind, mret, M_ret. reflexivity. }
  unfold mbind at 1, M_bind at 1 in Hbuild.
  destruct (for_each _ _ _ _) as [[[model1 hp1]|e] t1] eqn:Hloop; [|done].
  apply __tf_build_layers_inv in Hloop as (built & Hb & _ & Hall).
  simpl in Hb. subst built.
  destruct (optimizer_eq_str optimizer "adam").
  - unfold model_compile, hp_Choice, global_name, emit, raise, mbind, M_bind,
      mret, M_ret in Hbuild.
    repeat (case_match; simplify_eq); simpl in *; simplify_eq.
    eexists. simpl. split; [done|]. split; [by eexists|done].
  - unfold model_compile, emit, mbind, M_bind, mret, M_ret in Hbuild.
    simplify_eq. eexists. simpl. by repeat split.
Qed.

(** X14. A model built by the hypermodel has one layer per layer
    specification, in order, with the specification's activation and its
    [input_shape] exactly where the specification has one; unlike the
    builder's layers, none of them is given the seeded initializer. *)
Theorem __tf_build_layers (dense : list (gmap string value))
    (optimizer : optimizer) (learning_rate : list value)
    (loss : option string) (metrics : option (list string)) (hp : H)
    (t : list call) (model : Sequential) (t' : list call) :
  __tf_build dense optimizer learning_rate loss metrics hp t = (Ok model, t') →
  length (layers model) = length dense ∧
  ∀ i d, dense !! i = Some d →
    ∃ l, layers model !! i = Some l ∧
      d !! "activation" = Some (activation l) ∧
      d !! "input_shape" = input_shape l ∧
      kernel_initializer l = None.
Proof.
  intros Hbuild. apply __tf_build_inv in Hbuild as (opt & _ & _ & Hall).
  split; [symmetry; by eapply Forall2_length|].
  intros i d Hd. destruct (Forall2_lookup_l _ _ _ _ _ Hall Hd) as (l & ? & ?).
  by exists l.
Qed.

(** X15. The hypermodel samples a learning rate and compiles with
    [Adam] only when the optimizer argument is the string [adam]; for any
    other optimizer, identifier or object, the model is compiled with
    [optimizer=None].  Loss and metrics are passed to [compile] as given,
    unvalidated. *)
Theorem __tf_build_optimizer (dense : list (gmap string value))
    (optimizer : optimizer) (learning_rate : list value)
    (loss : option string) (metrics : option (list string)) (hp : H)
    (t : list call) (model : Sequential) (t' : list call) :
  __tf_build dense optimizer learning_rate loss metrics hp t = (Ok model, t') →
  ∃ opt,
    compiled model = Some (mkCompile opt loss metrics) ∧
    match optimizer with
    | OptName "adam" => ∃ lr, opt = Some (Adam lr)
    | _ => opt = None
    end.
Proof.
  intros Hbuild. apply __tf_build_inv in Hbuild as (opt & Hc & Hopt & _).
  exists opt. split; [done|].
  destruct optimizer as [s| |]; simpl in Hopt; try done.
  destruct (String.eqb s "adam") eqn:Heq.
  - apply String.eqb_eq in Heq as ->. done.
  - apply String.eqb_neq in Heq.
    repeat (case_match; try done).
Qed.

(** X16. The tuner does not validate its arguments the way the builder
    does: without metrics it fails on [metrics[0]] before a tuner is
    constructed, with [TypeError] for [None] (the default) and
    [IndexError] for the empty list. *)
Theorem tf_tune_needs_metrics (x_train y_train x_test y_test : option ndarray)
    (dense : list (gmap string value)) (optimizer : optimizer)
    (learning_rate : list value) (loss : option string)
    (max_epochs factor seed : Z) (directory project_name : string)
    (t : list call) :
  tf_tune x_train y_train x_test y_test dense optimizer learning_rate loss
    None max_epochs factor seed directory project_name t =
    (Raise (TypeError "'NoneType' object is not subscriptable"), t) ∧
  tf_tune x_train y_train x_test y_test dense optimizer learning_rate loss
    (Some []) max_epochs factor seed directory project_name t =
    (Raise (IndexError "list index out of range"), t).
Proof.
  split; unfold tf_tune;
    (erewrite bind_Ok by (by apply global_name_bound)); reflexivity.
Qed.

End TunerMore.

(** ** The further statements at concrete inputs *)

Lemma tf_train_fit_arguments_witness :
  ((None : option string) = None ∨ (None : option string) = Some "") ∧
  fit_calls (run (tf_train (backend := Sample.backend) Sample.persisted
                    (Some Sample.x_train) (Some Cases.y_train)
                    (Some Sample.x_train) None 500 32 true true None
                    (Some "logs") 0)).2 =
    [ mkFit (Some Sample.x_train) (Some Cases.y_train) 500 32
        (Some (Some Sample.x_train, None)) 0
        [ EarlyStopping 10 true 0; ReduceLROnPlateau (1 # 10)%Q 5 0;
          TensorBoard "logs" 1 true ] ].
Proof.
  split; [by left|].
  apply (tf_train_fit_arguments (backend := Sample.backend)). by left.
Defined.

Lemma tf_train_reports_splits_witness :
  (∀ a, keras_fit (Backend := Sample.backend) Sample.persisted a =
          Ok Cases.fitted) ∧
  (run (tf_train (backend := Sample.backend) Sample.persisted
          (Some Sample.x_train) (Some Cases.y_train) (Some Sample.x_train)
          None 500 32 true true None None 0)).1 = Ok Cases.fitted ∧
  tables (run (tf_train (backend := Sample.backend) Sample.persisted
                 (Some Sample.x_train) (Some Cases.y_train)
                 (Some Sample.x_train) None 500 32 true true None None 0)).2 =
    [SplitRows [("train", [("loss", (1 # 4)%Q)])]].
Proof.
  split; [reflexivity|].
  destruct (tf_train_reports_splits (backend := Sample.backend)
              Sample.persisted (Some Sample.x_train) (Some Cases.y_train)
              (Some Sample.x_train) None 500 32 true true None None 0
              Cases.fitted Cases.scores (or_introl eq_refl)
              (λ _, eq_refl) (λ _ _, eq_refl)) as (Hh & Ht & _).
  split; [exact Hh|exact Ht].
Defined.

Lemma tf_train_fit_failure_witness :
  (∀ a, keras_fit (Backend := Cases.failing_backend) Sample.persisted a =
          Raise (ValueError "fit failed")) ∧
  (run (tf_train (backend := Cases.failing_backend) Sample.persisted
          (Some Sample.x_train) (Some Cases.y_train) None None 500 32
          true true None None 0)).1 = Raise (ValueError "fit failed").
Proof.
  split; [reflexivity|].
  apply (tf_train_fit_failure (backend := Cases.failing_backend)
           Sample.persisted (Some Sample.x_train) (Some Cases.y_train) None
           None 500 32 true true None None 0 (ValueError "fit failed")
           (or_introl eq_refl) (λ _, eq_refl)).
Defined.

Lemma cases_dense_without_units :
  Exists (λ v : gmap string value,
            v !! "units" = None ∨ v !! "activation" = None)
    Cases.dense_without_units.
Proof. right. left. left. reflexivity. Defined.


Lemma sample_dense_keys :
  Forall (λ v : gmap string value,
            is_Some (v !! "units") ∧ is_Some (v !! "activation"))
    Sample.dense.
Proof. repeat constructor; by eexists. Defined.


Lemma tf_result_groups_shape_witness :
  ∃ result_df,
    tf_result_frame Sample.keras_order_with_lr = Ok result_df ∧
    Forall (group_of (columns_of result_df))
      [["loss"; "val_loss"]; ["mae"; "val_mae"]] ∧
    (2 ≤ length (history Sample.keras_order_with_lr) - 2)%nat.
Proof.
  eexists. split; [reflexivity|].
  exact (tf_result_groups_shape Sample.keras_order_with_lr _ _
           eq_refl eq_refl).
Defined.

Lemma sample_plain_keys :
  Forall (λ m, str_prefix 3 m ≠ "val") ["loss"; "mae"].
Proof. repeat constructor; discriminate. Defined.

Lemma tf_result_pairs_then_one_more_witness :
  ∃ result_df,
    tf_result_frame Sample.keras_order_with_lr = Ok result_df ∧
    columns_of result_df =
      ["loss"; "mae"] ++ (String.append "val_" <$> ["loss"; "mae"]) ++ ["lr"] ∧
    tf_result_group_names result_df =
      Ok ((λ m, [m; "val_" +:+ m]) <$> ["loss"; "mae"]).
Proof.
  eexists. split; [reflexivity|]. split; [reflexivity|].
  apply (tf_result_pairs_then_one_more _ ["loss"; "mae"] "lr"
           sample_plain_keys).
  reflexivity.
Defined.


Lemma my_tf_checkpoint_NameError_witness :
  "best.weights.h5" ≠ "" ∧
  (run (my_tf (backend := Sample.backend) (Some Sample.x_train)
          (Some Cases.y_train) None None [] (OptName "adam") None None 500
          32 true true (Some "best.weights.h5") (Some "model.keras") None 0
          false (7 # 1, 5 # 1)%Q 100)).1 =
    Raise (NameError "ModelCheckpoint").
Proof.
  split; [discriminate|].
  apply (my_tf_checkpoint_NameError (backend := Sample.backend)
           (Some Sample.x_train) (Some Cases.y_train) None None []
           (OptName "adam") None None 500 32 true true "best.weights.h5"
           (Some "model.keras") None 0 false (7 # 1, 5 # 1)%Q 100
           Sample.persisted [call_load_model "model.keras"]).
  - discriminate.
  - reflexivity.
Defined.


Lemma my_tf_linear_feature_width_witness :
  shape Cases.flat !! 1%nat = None ∧
  my_tf_linear (backend := Sample.backend) (Some Cases.flat)
    (Some Cases.y_train) None None [64; 32] (OptName "adam") (Some "mse")
    (Some ["mae"]) 500 32 true true None None None 0 false
    (7 # 1, 5 # 1)%Q 100 [] =
    (Raise (IndexError "tuple index out of range"), []).
Proof.
  split; [reflexivity|].
  apply (my_tf_linear_feature_width (backend := Sample.backend) Cases.flat
           (Some Cases.y_train) None None 64 [32] (OptName "adam")
           (Some "mse") (Some ["mae"]) 500 32 true true None None None 0
           false (7 # 1, 5 # 1)%Q 100 [] eq_refl).
Defined.

Lemma __tf_build_layers_witness :
  ∃ model t',
    __tf_build Sample.tuner_dense (OptName "adam") Sample.learning_rate
      (Some "mse") (Some ["mae"]) Sample.best [] = (Ok model, t') ∧
    length (layers model) = length Sample.tuner_dense ∧
    ∀ i d, Sample.tuner_dense !! i = Some d →
      ∃ l, layers model !! i = Some l ∧
        d !! "activation" = Some (activation l) ∧
        d !! "input_shape" = input_shape l ∧
        kernel_initializer l = None.
Proof.
  eexists _, _. split; [vm_compute; reflexivity|].
  eapply (__tf_build_layers (H := gmap string value) Sample.tuner_dense
            (OptName "adam") Sample.learning_rate (Some "mse") (Some ["mae"])
            Sample.best []).
  vm_compute. reflexivity.
Defined.

Lemma __tf_build_optimizer_witness :
  ∃ model t',
    __tf_build Sample.tuner_dense (OptName "sgd") Sample.learning_rate
      (Some "mse") (Some ["mae"]) Sample.best [] = (Ok model, t') ∧
    ∃ opt,
      compiled model = Some (mkCompile opt (Some "mse") (Some ["mae"])) ∧
      opt = None.
Proof.
  eexists _, _. split; [vm_compute; reflexivity|].
  eapply (__tf_build_optimizer (H := gmap string value) Sample.tuner_dense
            (OptName "sgd") Sample.learning_rate (Some "mse") (Some ["mae"])
            Sample.best []).
  vm_compute. reflexivity.
Defined.
